(** * SAFFATEAM team scheduler: access control and client operations

    A shallow embedding of the parts of the repository that carry
    invariants: the row-level-security policies installed by the SQL
    migrations under [supabase/migrations], the referential actions of the
    schema, and the client handlers of the pages that write to the store
    ([Settings], [Tasks], [Projects], [LiveHost], [ContentTracker],
    [Calendar], [AuthContext], [useRealTimeSync]), together with the checks
    of the login and template forms and the figures of the analytics page.
    The policies on [storage.objects] and the Malay tables' data are left
    out.

    Conventions.
    - A uuid is a [string]; SQL NULL is [None].
    - A table is a finite map from its primary key [id] to the remaining
      columns; the [created_at]/[updated_at] timestamps are left out.
    - Policy expressions are evaluated two-valued: a comparison with NULL is
      not true.  The expressions of the migrations are built from [=], [OR]
      and [EXISTS] only, so this agrees with SQL's "row passes when the
      expression is true". *)

From Stdlib Require Import Ascii ZArith QArith Qcanon Qround Lia.
From stdpp Require Import base decidable option strings list numbers sorting gmap fin_maps.

Definition uuid := string.

(** [role: 'admin' | 'user'] *)
Module Role.
Inductive role := admin | user.
End Role.
Export Role.

#[global] Instance role_eq_dec : EqDecision role.
Proof. solve_decision. Defined.

(** [user_profiles] row (initial schema): [nama text], [role text CHECK
    (role IN ('admin','user'))]; the key of the map is [id]. *)
Record UserProfile := { nama : string; up_role : role }.

(** * Row-level security *)
Module Rls.

(** Tables named by the migrations, the Malay originals included. *)
Inductive table :=
| user_profiles | projects | tasks | calendar_notes | content_log
| live_log | live_manual_log | templates | activity_log
| projek | tugasan | nota_kalendar | aktiviti_log.

#[global] Instance table_eq_dec : EqDecision table.
Proof. solve_decision. Defined.

(** uuid columns the policy expressions compare with [auth.uid()]. *)
Inductive column := c_id | c_user_id | c_assigned_to | c_uploaded_by | c_ditugaskan_kepada.

Inductive command := ALL | SELECT | INSERT | UPDATE | DELETE.

#[global] Instance command_eq_dec : EqDecision command.
Proof. solve_decision. Defined.

(** Policy expressions of the migrations. *)
Inductive expr :=
| ETrue                       (* true *)
| EUidEq (c : column)         (* auth.uid() = c *)
| EOr (a b : expr)            (* a OR b *)
| EIsAdmin.                   (* EXISTS (SELECT 1 FROM user_profiles
                                 WHERE id = auth.uid() AND role = 'admin') *)

Record policy := {
  p_name : string;
  p_table : table;
  p_cmd : command;
  p_using : option expr;
  p_check : option expr
}.

Inductive stmt :=
| EnableRLS (t : table)                        (* ALTER TABLE t ENABLE ROW LEVEL SECURITY *)
| DropPolicyIfExists (n : string) (t : table)  (* DROP POLICY IF EXISTS n ON t *)
| CreatePolicy (p : policy).                   (* CREATE POLICY ... TO authenticated *)

Record schema := { rls_enabled : list table; policies : list policy }.

Definition empty_schema : schema := {| rls_enabled := []; policies := [] |}.

Definition same_policy (n : string) (t : table) (p : policy) : bool :=
  bool_decide (p_name p = n) && bool_decide (p_table p = t).

(** CREATE POLICY fails when the table already has a policy of that name. *)
Definition exec_stmt (s : schema) (st : stmt) : option schema :=
  match st with
  | EnableRLS t =>
      Some {| rls_enabled := t :: rls_enabled s; policies := policies s |}
  | DropPolicyIfExists n t =>
      Some {| rls_enabled := rls_enabled s;
              policies := List.filter (fun p => negb (same_policy n t p)) (policies s) |}
  | CreatePolicy p =>
      if existsb (same_policy (p_name p) (p_table p)) (policies s) then None
      else Some {| rls_enabled := rls_enabled s; policies := policies s ++ [p] |}
  end.

Fixpoint exec_stmts (s : schema) (sts : list stmt) : option schema :=
  match sts with
  | [] => Some s
  | st :: rest =>
      match exec_stmt s st with
      | Some s' => exec_stmts s' rest
      | None => None
      end
  end.

Definition own (c : column) : expr := EUidEq c.
Definition own_or_admin (c : column) : expr := EOr (EUidEq c) EIsAdmin.

Definition mk (n : string) (t : table) (c : command) (u k : option expr) : stmt :=
  CreatePolicy {| p_name := n; p_table := t; p_cmd := c; p_using := u; p_check := k |}.

(** Initial schema migration (the file creating [user_profiles], [projek],
    [tugasan], ...). *)
Definition initial_schema : list stmt :=
  [ EnableRLS user_profiles; EnableRLS projek; EnableRLS tugasan;
    EnableRLS nota_kalendar; EnableRLS content_log; EnableRLS live_log;
    EnableRLS templates; EnableRLS aktiviti_log;
    mk "Users can read own profile" user_profiles SELECT (Some (own c_id)) None;
    mk "Users can update own profile" user_profiles UPDATE (Some (own c_id)) None;
    mk "Admins can read all profiles" user_profiles SELECT (Some EIsAdmin) None;
    mk "Users can manage own projects" projek ALL (Some (own c_user_id)) None;
    mk "Admins can manage all projects" projek ALL (Some EIsAdmin) None;
    mk "Users can manage own tasks" tugasan ALL
       (Some (EOr (EUidEq c_user_id) (EUidEq c_ditugaskan_kepada))) None;
    mk "Admins can manage all tasks" tugasan ALL (Some EIsAdmin) None;
    mk "Users can manage own calendar notes" nota_kalendar ALL (Some (own c_user_id)) None;
    mk "Admins can read all calendar notes" nota_kalendar SELECT (Some EIsAdmin) None;
    mk "Users can manage own content logs" content_log ALL (Some (own c_user_id)) None;
    mk "Admins can read all content logs" content_log SELECT (Some EIsAdmin) None;
    mk "Users can manage own live logs" live_log ALL (Some (own c_user_id)) None;
    mk "Admins can read all live logs" live_log SELECT (Some EIsAdmin) None;
    mk "Users can read all templates" templates SELECT None None;
    mk "Admins can manage all templates" templates ALL (Some EIsAdmin) None;
    mk "Users can read own activity logs" aktiviti_log SELECT (Some (own c_user_id)) None;
    mk "Admins can read all activity logs" aktiviti_log SELECT (Some EIsAdmin) None;
    mk "All users can insert activity logs" aktiviti_log INSERT None (Some (own c_user_id)) ].

(** 20250629205310_sparkling_gate.sql *)
Definition sparkling_gate : list stmt :=
  [ DropPolicyIfExists "Admins can read all profiles" user_profiles;
    DropPolicyIfExists "Users can read own profile" user_profiles;
    DropPolicyIfExists "Users can update own profile" user_profiles;
    mk "Users can read own profile" user_profiles SELECT (Some (own c_id)) None;
    mk "Users can create own profile" user_profiles INSERT None (Some (own c_id));
    mk "Users can update own profile" user_profiles UPDATE (Some (own c_id)) (Some (own c_id));
    mk "Admins can read all profiles" user_profiles SELECT (Some EIsAdmin) None;
    mk "Admins can manage all profiles" user_profiles ALL (Some EIsAdmin) (Some EIsAdmin) ].

(** 20250629210208_young_forest.sql *)
Definition young_forest : list stmt :=
  [ EnableRLS projects; EnableRLS tasks; EnableRLS calendar_notes;
    EnableRLS content_log; EnableRLS live_log; EnableRLS templates;
    EnableRLS activity_log;
    DropPolicyIfExists "Users can manage own projects" projects;
    DropPolicyIfExists "Admins can manage all projects" projects;
    DropPolicyIfExists "Users can manage own tasks" tasks;
    DropPolicyIfExists "Admins can manage all tasks" tasks;
    DropPolicyIfExists "Users can manage own calendar notes" calendar_notes;
    DropPolicyIfExists "Admins can read all calendar notes" calendar_notes;
    DropPolicyIfExists "Users can manage own content logs" content_log;
    DropPolicyIfExists "Admins can read all content logs" content_log;
    DropPolicyIfExists "Users can manage own live logs" live_log;
    DropPolicyIfExists "Admins can read all live logs" live_log;
    DropPolicyIfExists "Users can read all templates" templates;
    DropPolicyIfExists "Admins can manage all templates" templates;
    DropPolicyIfExists "Users can read own activity logs" activity_log;
    DropPolicyIfExists "All users can insert activity logs" activity_log;
    DropPolicyIfExists "Admins can read all activity logs" activity_log;
    mk "Users can manage own projects" projects ALL (Some (own c_user_id)) None;
    mk "Admins can manage all projects" projects ALL (Some EIsAdmin) None;
    mk "Users can manage own tasks" tasks ALL
       (Some (EOr (EUidEq c_user_id) (EUidEq c_assigned_to))) None;
    mk "Admins can manage all tasks" tasks ALL (Some EIsAdmin) None;
    mk "Users can manage own calendar notes" calendar_notes ALL (Some (own c_user_id)) None;
    mk "Admins can read all calendar notes" calendar_notes SELECT (Some EIsAdmin) None;
    mk "Users can manage own content logs" content_log ALL (Some (own c_user_id)) None;
    mk "Admins can read all content logs" content_log SELECT (Some EIsAdmin) None;
    mk "Users can manage own live logs" live_log ALL (Some (own c_user_id)) None;
    mk "Admins can read all live logs" live_log SELECT (Some EIsAdmin) None;
    mk "Users can read all templates" templates SELECT (Some ETrue) None;
    mk "Admins can manage all templates" templates ALL (Some EIsAdmin) None;
    mk "Users can read own activity logs" activity_log SELECT (Some (own c_user_id)) None;
    mk "All users can insert activity logs" activity_log INSERT None (Some (own c_user_id));
    mk "Admins can read all activity logs" activity_log SELECT (Some EIsAdmin) None ].

Definition own_both (n : string) (t : table) (c : command) (e : expr) : stmt :=
  mk n t c (Some e) (Some e).

(** 20250629213024_weathered_lantern.sql *)
Definition weathered_lantern : list stmt :=
  [ DropPolicyIfExists "Admins can manage all profiles" user_profiles;
    DropPolicyIfExists "Admins can read all profiles" user_profiles;
    DropPolicyIfExists "Users can create own profile" user_profiles;
    DropPolicyIfExists "Users can read own profile" user_profiles;
    DropPolicyIfExists "Users can update own profile" user_profiles;
    own_both "Users can manage own profile" user_profiles ALL (own c_id);
    DropPolicyIfExists "Admins can manage all projects" projects;
    DropPolicyIfExists "Users can manage own projects" projects;
    own_both "Users can manage own projects" projects ALL (own c_user_id);
    DropPolicyIfExists "Admins can manage all tasks" tasks;
    DropPolicyIfExists "Users can manage own tasks" tasks;
    own_both "Users can manage own tasks" tasks ALL
      (EOr (EUidEq c_user_id) (EUidEq c_assigned_to));
    DropPolicyIfExists "Admins can read all activity logs" activity_log;
    DropPolicyIfExists "All users can insert activity logs" activity_log;
    DropPolicyIfExists "Users can read own activity logs" activity_log;
    mk "Users can read own activity logs" activity_log SELECT (Some (own c_user_id)) None;
    mk "Users can insert own activity logs" activity_log INSERT None (Some (own c_user_id));
    DropPolicyIfExists "Admins can read all content logs" content_log;
    DropPolicyIfExists "Users can manage own content logs" content_log;
    own_both "Users can manage own content logs" content_log ALL (own c_user_id);
    DropPolicyIfExists "Admins can read all live logs" live_log;
    DropPolicyIfExists "Users can manage own live logs" live_log;
    own_both "Users can manage own live logs" live_log ALL (own c_user_id);
    DropPolicyIfExists "Admins can read all calendar notes" calendar_notes;
    DropPolicyIfExists "Users can manage own calendar notes" calendar_notes;
    own_both "Users can manage own calendar notes" calendar_notes ALL (own c_user_id);
    DropPolicyIfExists "Admins can manage all templates" templates;
    DropPolicyIfExists "Users can read all templates" templates;
    mk "Users can read all templates" templates SELECT (Some ETrue) None;
    own_both "Users can manage own templates" templates ALL (own c_uploaded_by);
    DropPolicyIfExists "Admins can manage all projects" projek;
    DropPolicyIfExists "Users can manage own projects" projek;
    own_both "Users can manage own projects" projek ALL (own c_user_id);
    DropPolicyIfExists "Admins can manage all tasks" tugasan;
    DropPolicyIfExists "Users can manage own tasks" tugasan;
    own_both "Users can manage own tasks" tugasan ALL
      (EOr (EUidEq c_user_id) (EUidEq c_ditugaskan_kepada));
    DropPolicyIfExists "Admins can read all calendar notes" nota_kalendar;
    DropPolicyIfExists "Users can manage own calendar notes" nota_kalendar;
    own_both "Users can manage own calendar notes" nota_kalendar ALL (own c_user_id);
    DropPolicyIfExists "Admins can read all activity logs" aktiviti_log;
    DropPolicyIfExists "All users can insert activity logs" aktiviti_log;
    DropPolicyIfExists "Users can read own activity logs" aktiviti_log;
    mk "Users can read own activity logs" aktiviti_log SELECT (Some (own c_user_id)) None;
    mk "Users can insert own activity logs" aktiviti_log INSERT None (Some (own c_user_id)) ].

(** 20250629221605_hidden_paper.sql *)
Definition hidden_paper : list stmt :=
  [ EnableRLS live_manual_log;
    own_both "Users can manage own live manual logs" live_manual_log ALL (own c_user_id) ].

(** 20250629224259_fragrant_crystal.sql *)
Definition fragrant_crystal : list stmt :=
  [ DropPolicyIfExists "Users can manage own projects" projects;
    own_both "Users can manage own projects" projects ALL (own_or_admin c_user_id);
    DropPolicyIfExists "Users can manage own tasks" tasks;
    own_both "Users can manage own tasks" tasks ALL
      (EOr (EOr (EUidEq c_user_id) (EUidEq c_assigned_to)) EIsAdmin);
    DropPolicyIfExists "Users can manage own calendar notes" calendar_notes;
    own_both "Users can manage own calendar notes" calendar_notes ALL (own_or_admin c_user_id);
    DropPolicyIfExists "Users can manage own content logs" content_log;
    own_both "Users can manage own content logs" content_log ALL (own_or_admin c_user_id);
    DropPolicyIfExists "Users can manage own live manual logs" live_manual_log;
    own_both "Users can manage own live manual logs" live_manual_log ALL
      (own_or_admin c_user_id);
    DropPolicyIfExists "Users can manage own templates" templates;
    DropPolicyIfExists "Users can read all templates" templates;
    mk "Users can read all templates" templates SELECT (Some ETrue) None;
    own_both "Users can manage own templates" templates ALL (own_or_admin c_uploaded_by);
    DropPolicyIfExists "Users can read own activity logs" activity_log;
    DropPolicyIfExists "Users can insert own activity logs" activity_log;
    mk "Users can read own activity logs" activity_log SELECT
       (Some (own_or_admin c_user_id)) None;
    mk "Users can insert own activity logs" activity_log INSERT None (Some (own c_user_id)) ].

(** The migrations in the order of their timestamps. *)
Definition migrations : list stmt :=
  initial_schema ++ sparkling_gate ++ young_forest ++ weathered_lantern
    ++ hidden_paper ++ fragrant_crystal.

Definition current_schema : schema :=
  default empty_schema (exec_stmts empty_schema migrations).

(** ** Policy evaluation *)

(** The uuid columns of a row as the policy expressions see them. *)
Definition row := column -> option uuid.

Definition is_admin (profiles : gmap uuid UserProfile) (uid : uuid) : bool :=
  match profiles !! uid with
  | Some p => bool_decide (up_role p = admin)
  | None => false
  end.

Fixpoint eval (profiles : gmap uuid UserProfile) (uid : uuid) (r : row) (e : expr) : bool :=
  match e with
  | ETrue => true
  | EUidEq c => bool_decide (r c = Some uid)
  | EOr a b => eval profiles uid r a || eval profiles uid r b
  | EIsAdmin => is_admin profiles uid
  end.

(** A policy without USING lets every row pass; one without WITH CHECK
    checks new rows with its USING expression. *)
Definition using_of (p : policy) : expr := default ETrue (p_using p).
Definition check_of (p : policy) : expr :=
  match p_check p with
  | Some e => e
  | None => using_of p
  end.

Definition applies (c : command) (t : table) (p : policy) : bool :=
  bool_decide (p_table p = t) && (bool_decide (p_cmd p = ALL) || bool_decide (p_cmd p = c)).

Definition rls_on (s : schema) (t : table) : bool := bool_decide (t ∈ rls_enabled s).

(** Some applicable permissive policy has a USING expression the row
    passes.  All policies are TO authenticated: a request without a
    session ([None]) matches none of them. *)
Definition passes_using (s : schema) (profiles : gmap uuid UserProfile)
    (auth : option uuid) (c : command) (t : table) (r : row) : bool :=
  if rls_on s t then
    match auth with
    | Some uid =>
        existsb (fun p => applies c t p && eval profiles uid r (using_of p)) (policies s)
    | None => false
    end
  else true.

Definition passes_check (s : schema) (profiles : gmap uuid UserProfile)
    (auth : option uuid) (c : command) (t : table) (r : row) : bool :=
  if rls_on s t then
    match auth with
    | Some uid =>
        existsb (fun p => applies c t p && eval profiles uid r (check_of p)) (policies s)
    | None => false
    end
  else true.

Definition can_select s profiles auth t r : bool :=
  passes_using s profiles auth SELECT t r.

Definition can_insert s profiles auth t r : bool :=
  passes_check s profiles auth INSERT t r.

(** UPDATE and DELETE with a WHERE clause read the row, so the SELECT
    policies apply in addition. *)
Definition can_update_row s profiles auth t r : bool :=
  passes_using s profiles auth SELECT t r && passes_using s profiles auth UPDATE t r.

Definition can_update s profiles auth t (old new : row) : bool :=
  can_update_row s profiles auth t old && passes_check s profiles auth UPDATE t new.

Definition can_delete s profiles auth t r : bool :=
  passes_using s profiles auth SELECT t r && passes_using s profiles auth DELETE t r.

(** The predicates of the deployed schema. *)
Definition can_read (profiles : gmap uuid UserProfile) (P : uuid) (t : table) (r : row) : bool :=
  can_select current_schema profiles (Some P) t r.

End Rls.

(** * Data model (DDL of the migrations) *)

(** [status text CHECK (status IN ('Not Started','Ongoing','Completed'))] *)
Inductive status := NotStarted | Ongoing | Completed.

#[global] Instance status_eq_dec : EqDecision status.
Proof. solve_decision. Defined.

Inductive category := Product | Daily | General.
Inductive template_type := image | pdf.

Record Project := {
  pr_name : string;
  pr_start_date : option string;
  pr_end_date : option string;
  pr_status : status;
  pr_user_id : option uuid          (* REFERENCES user_profiles(id) ON DELETE CASCADE *)
}.

Record Task := {
  t_title : string;
  t_project_id : option uuid;       (* REFERENCES projects(id) ON DELETE CASCADE *)
  t_due_date : option string;
  t_status : status;
  t_assigned_to : option uuid;      (* REFERENCES user_profiles(id) ON DELETE SET NULL *)
  t_progress : Z;                   (* CHECK (progress >= 0 AND progress <= 100) *)
  t_user_id : option uuid           (* REFERENCES user_profiles(id) ON DELETE CASCADE *)
}.

Record CalendarNote := {
  cn_user_id : option uuid;         (* ON DELETE CASCADE *)
  cn_note_date : string;
  cn_note : string
}.

Record ContentLog := {
  cl_user_id : option uuid;         (* ON DELETE CASCADE *)
  cl_log_date : string;
  cl_content_count : Z
}.

Record LiveManualLog := {
  lm_user_id : option uuid;         (* ON DELETE CASCADE *)
  lm_host_name : string;
  lm_live_date : string;
  lm_total_hours : Qc               (* numeric NOT NULL CHECK (total_hours >= 0) *)
}.

Record Template := {
  tp_title : string;
  tp_category : category;
  tp_type : template_type;
  tp_file_url : option string;
  tp_uploaded_by : option uuid;     (* REFERENCES user_profiles(id) ON DELETE SET NULL *)
  tp_uploaded_at : string
}.

Record ActivityLog := {
  al_user_id : option uuid;         (* ON DELETE CASCADE *)
  al_action : string
}.

(** * The relational store *)
Module Store.

Record DB := {
  tbl_user_profiles : gmap uuid UserProfile;
  tbl_projects : gmap uuid Project;
  tbl_tasks : gmap uuid Task;
  tbl_calendar_notes : gmap uuid CalendarNote;
  tbl_content_log : gmap uuid ContentLog;
  tbl_live_manual_log : gmap uuid LiveManualLog;
  tbl_templates : gmap uuid Template;
  tbl_activity_log : gmap uuid ActivityLog
}.

Inductive store_error :=
| rls_violation            (* new row violates row-level security policy *)
| check_violation          (* CHECK constraint *)
| fk_violation             (* foreign key *)
| unique_violation         (* primary key *)
| invalid_text.            (* invalid input syntax for type date: the empty string *)

Inductive result (A : Type) := Ok (a : A) | Err (e : store_error).
Arguments Ok {A} a.
Arguments Err {A} e.

(** ** Rows as the policies see them *)
Definition profile_row (id : uuid) (_ : UserProfile) : Rls.row :=
  fun c => match c with Rls.c_id => Some id | _ => None end.

Definition owned_row (owner : option uuid) (id : uuid) : Rls.row :=
  fun c => match c with Rls.c_id => Some id | Rls.c_user_id => owner | _ => None end.

Definition project_row (id : uuid) (p : Project) : Rls.row := owned_row (pr_user_id p) id.

Definition task_row (id : uuid) (t : Task) : Rls.row :=
  fun c => match c with
           | Rls.c_id => Some id
           | Rls.c_user_id => t_user_id t
           | Rls.c_assigned_to => t_assigned_to t
           | _ => None
           end.

Definition content_log_row (id : uuid) (l : ContentLog) : Rls.row :=
  owned_row (cl_user_id l) id.
Definition live_manual_log_row (id : uuid) (l : LiveManualLog) : Rls.row :=
  owned_row (lm_user_id l) id.
Definition activity_log_row (id : uuid) (l : ActivityLog) : Rls.row :=
  owned_row (al_user_id l) id.

Definition template_row (id : uuid) (t : Template) : Rls.row :=
  fun c => match c with
           | Rls.c_id => Some id
           | Rls.c_uploaded_by => tp_uploaded_by t
           | _ => None
           end.

(** ** Constraints *)

(** A foreign key is checked when a row is inserted and when an update
    changes the referencing column; [old] is the column before the update. *)
Definition fk_ok {R : Type} (m : gmap uuid R) (old : option (option uuid))
    (ref : option uuid) : bool :=
  if bool_decide (old = Some ref) then true
  else match ref with
       | None => true
       | Some k => bool_decide (is_Some (m !! k))
       end.

(** The checks on a new row; [old] is the row it replaces, if any. *)
Definition task_constraints (db : DB) (old : option Task) (t : Task) : option store_error :=
  if negb (bool_decide (0 ≤ t_progress t)%Z && bool_decide (t_progress t ≤ 100)%Z)
  then Some check_violation
  else if negb (fk_ok (tbl_projects db) (t_project_id <$> old) (t_project_id t)
                && fk_ok (tbl_user_profiles db) (t_assigned_to <$> old) (t_assigned_to t)
                && fk_ok (tbl_user_profiles db) (t_user_id <$> old) (t_user_id t))
  then Some fk_violation
  else None.

Definition content_log_constraints (db : DB) (old : option ContentLog) (l : ContentLog)
  : option store_error :=
  if fk_ok (tbl_user_profiles db) (cl_user_id <$> old) (cl_user_id l) then None
  else Some fk_violation.

Definition live_manual_log_constraints (db : DB) (old : option LiveManualLog)
    (l : LiveManualLog) : option store_error :=
  if negb (bool_decide (0 ≤ lm_total_hours l)%Qc) then Some check_violation
  else if fk_ok (tbl_user_profiles db) (lm_user_id <$> old) (lm_user_id l) then None
  else Some fk_violation.

Definition profile_constraints (db : DB) (old : option UserProfile) (p : UserProfile)
  : option store_error := None.

Definition activity_log_constraints (db : DB) (old : option ActivityLog) (l : ActivityLog)
  : option store_error :=
  if fk_ok (tbl_user_profiles db) (al_user_id <$> old) (al_user_id l) then None
  else Some fk_violation.

(** ** Generic row operations under the deployed policies *)
Section Table.
Context {R : Type}.
Variable t : Rls.table.
Variable cols : uuid -> R -> Rls.row.
Variable constraints : DB -> option R -> R -> option store_error.
Variable db : DB.
Variable auth : option uuid.

Let profiles := tbl_user_profiles db.

Definition visible (id : uuid) (r : R) : bool :=
  Rls.can_select Rls.current_schema profiles auth t (cols id r).

(** SELECT * FROM t: the rows the SELECT policies let through. *)
Definition select_rows (m : gmap uuid R) : gmap uuid R :=
  filter (fun kv => visible kv.1 kv.2 = true) m.

(** INSERT of one row whose key [id] was drawn by [gen_random_uuid()]
    (or given by the client). *)
Definition insert_row (id : uuid) (r : R) (m : gmap uuid R) : result (gmap uuid R) :=
  if negb (Rls.can_insert Rls.current_schema profiles auth t (cols id r))
  then Err rls_violation
  else match constraints db None r with
       | Some e => Err e
       | None =>
           match m !! id with
           | Some _ => Err unique_violation
           | None => Ok (<[id := r]> m)
           end
       end.

(** UPDATE t SET ... WHERE id = [id]: a row the USING expressions filter
    out is skipped without an error; a new row failing WITH CHECK or a
    constraint aborts the statement. *)
Definition update_row (id : uuid) (f : R -> R) (m : gmap uuid R) : result (gmap uuid R) :=
  match m !! id with
  | None => Ok m
  | Some r =>
      if Rls.can_update_row Rls.current_schema profiles auth t (cols id r) then
        if Rls.passes_check Rls.current_schema profiles auth Rls.UPDATE t (cols id (f r))
        then match constraints db (Some r) (f r) with
             | Some e => Err e
             | None => Ok (<[id := f r]> m)
             end
        else Err rls_violation
      else Ok m
  end.

(** DELETE FROM t WHERE id = [id]: tells whether the row goes. *)
Definition deletes (id : uuid) (m : gmap uuid R) : bool :=
  match m !! id with
  | None => false
  | Some r => Rls.can_delete Rls.current_schema profiles auth t (cols id r)
  end.
End Table.

(** ** Referential actions of [DELETE FROM user_profiles WHERE id = p] *)

Definition owned_by (p : uuid) (owner : option uuid) : bool := bool_decide (owner = Some p).

Definition null_if (p : uuid) (ref : option uuid) : option uuid :=
  if bool_decide (ref = Some p) then None else ref.

(** A task goes with its owner, or with its project when the project goes. *)
Definition task_cascades (p : uuid) (projs : gmap uuid Project) (t : Task) : bool :=
  owned_by p (t_user_id t)
  || match t_project_id t with
     | Some pid =>
         match projs !! pid with
         | Some pr => owned_by p (pr_user_id pr)
         | None => false
         end
     | None => false
     end.

Definition unassign (p : uuid) (t : Task) : Task :=
  {| t_title := t_title t; t_project_id := t_project_id t; t_due_date := t_due_date t;
     t_status := t_status t; t_assigned_to := null_if p (t_assigned_to t);
     t_progress := t_progress t; t_user_id := t_user_id t |}.

Definition orphan (p : uuid) (t : Template) : Template :=
  {| tp_title := tp_title t; tp_category := tp_category t; tp_type := tp_type t;
     tp_file_url := tp_file_url t; tp_uploaded_by := null_if p (tp_uploaded_by t);
     tp_uploaded_at := tp_uploaded_at t |}.

Definition keep {R : Type} (p : uuid) (owner : R -> option uuid) (m : gmap uuid R)
  : gmap uuid R :=
  filter (fun kv => owned_by p (owner kv.2) = false) m.

Definition cascade_delete_profile (p : uuid) (db : DB) : DB :=
  {| tbl_user_profiles := delete p (tbl_user_profiles db);
     tbl_projects := keep p pr_user_id (tbl_projects db);
     tbl_tasks :=
       unassign p <$>
         filter (fun kv => task_cascades p (tbl_projects db) kv.2 = false) (tbl_tasks db);
     tbl_calendar_notes := keep p cn_user_id (tbl_calendar_notes db);
     tbl_content_log := keep p cl_user_id (tbl_content_log db);
     tbl_live_manual_log := keep p lm_user_id (tbl_live_manual_log db);
     tbl_templates := orphan p <$> tbl_templates db;
     tbl_activity_log := keep p al_user_id (tbl_activity_log db) |}.

Definition delete_profile (db : DB) (auth : option uuid) (p : uuid) : DB :=
  if deletes Rls.user_profiles profile_row db auth p (tbl_user_profiles db)
  then cascade_delete_profile p db
  else db.

(** ** Setters *)
Definition set_user_profiles (db : DB) (m : gmap uuid UserProfile) : DB :=
  {| tbl_user_profiles := m; tbl_projects := tbl_projects db; tbl_tasks := tbl_tasks db;
     tbl_calendar_notes := tbl_calendar_notes db; tbl_content_log := tbl_content_log db;
     tbl_live_manual_log := tbl_live_manual_log db; tbl_templates := tbl_templates db;
     tbl_activity_log := tbl_activity_log db |}.

Definition set_tasks (db : DB) (m : gmap uuid Task) : DB :=
  {| tbl_user_profiles := tbl_user_profiles db; tbl_projects := tbl_projects db;
     tbl_tasks := m;
     tbl_calendar_notes := tbl_calendar_notes db; tbl_content_log := tbl_content_log db;
     tbl_live_manual_log := tbl_live_manual_log db; tbl_templates := tbl_templates db;
     tbl_activity_log := tbl_activity_log db |}.

Definition set_content_log (db : DB) (m : gmap uuid ContentLog) : DB :=
  {| tbl_user_profiles := tbl_user_profiles db; tbl_projects := tbl_projects db;
     tbl_tasks := tbl_tasks db;
     tbl_calendar_notes := tbl_calendar_notes db; tbl_content_log := m;
     tbl_live_manual_log := tbl_live_manual_log db; tbl_templates := tbl_templates db;
     tbl_activity_log := tbl_activity_log db |}.

Definition set_live_manual_log (db : DB) (m : gmap uuid LiveManualLog) : DB :=
  {| tbl_user_profiles := tbl_user_profiles db; tbl_projects := tbl_projects db;
     tbl_tasks := tbl_tasks db;
     tbl_calendar_notes := tbl_calendar_notes db; tbl_content_log := tbl_content_log db;
     tbl_live_manual_log := m; tbl_templates := tbl_templates db;
     tbl_activity_log := tbl_activity_log db |}.

Definition set_activity_log (db : DB) (m : gmap uuid ActivityLog) : DB :=
  {| tbl_user_profiles := tbl_user_profiles db; tbl_projects := tbl_projects db;
     tbl_tasks := tbl_tasks db;
     tbl_calendar_notes := tbl_calendar_notes db; tbl_content_log := tbl_content_log db;
     tbl_live_manual_log := tbl_live_manual_log db; tbl_templates := tbl_templates db;
     tbl_activity_log := m |}.

Definition set_projects (db : DB) (m : gmap uuid Project) : DB :=
  {| tbl_user_profiles := tbl_user_profiles db; tbl_projects := m;
     tbl_tasks := tbl_tasks db;
     tbl_calendar_notes := tbl_calendar_notes db; tbl_content_log := tbl_content_log db;
     tbl_live_manual_log := tbl_live_manual_log db; tbl_templates := tbl_templates db;
     tbl_activity_log := tbl_activity_log db |}.

(** ** Deleting from the other tables *)

(** [DELETE FROM t WHERE id = id] on a table no other table refers to. *)
Definition delete_row {R : Type} (t : Rls.table) (cols : uuid -> R -> Rls.row) (db : DB)
    (auth : option uuid) (id : uuid) (m : gmap uuid R) : gmap uuid R :=
  if deletes t cols db auth id m then delete id m else m.

(** [tasks.project_id REFERENCES projects(id) ON DELETE CASCADE]: the tasks
    of a project go with it. *)
Definition cascade_delete_project (p : uuid) (db : DB) : DB :=
  {| tbl_user_profiles := tbl_user_profiles db;
     tbl_projects := delete p (tbl_projects db);
     tbl_tasks := filter (fun kv => t_project_id kv.2 ≠ Some p) (tbl_tasks db);
     tbl_calendar_notes := tbl_calendar_notes db; tbl_content_log := tbl_content_log db;
     tbl_live_manual_log := tbl_live_manual_log db; tbl_templates := tbl_templates db;
     tbl_activity_log := tbl_activity_log db |}.

Definition delete_project (db : DB) (auth : option uuid) (p : uuid) : DB :=
  if deletes Rls.projects project_row db auth p (tbl_projects db)
  then cascade_delete_project p db
  else db.



End Store.

(** * The client *)

(** The authenticated user of the session and the cached profile
    ([interface UserProfile] of the pages: id, nama, role). *)
Record User := { u_id : uuid; u_email : option string }.
Record Profile := { pf_id : uuid; pf_row : UserProfile }.

Inductive toast := toast_error (msg : string) | toast_success (msg : string).

(** What a handler acts on: the remote store, the requests it has issued to
    it (command and table), and the toasts shown. *)
Record world := {
  w_db : Store.DB;
  w_requests : list (Rls.command * Rls.table);
  w_toasts : list toast
}.

Definition M (A : Type) : Type := world -> A * world.

#[global] Instance M_ret : MRet M := fun A a w => (a, w).
#[global] Instance M_bind : MBind M := fun A B f m w => let '(a, w') := m w in f a w'.

Definition show (t : toast) : M unit :=
  fun w => (tt, {| w_db := w_db w; w_requests := w_requests w; w_toasts := w_toasts w ++ [t] |}).

Definition request (c : Rls.command) (t : Rls.table) : M unit :=
  fun w => (tt, {| w_db := w_db w; w_requests := w_requests w ++ [(c, t)];
                   w_toasts := w_toasts w |}).

Definition get_db : M Store.DB := fun w => (w_db w, w).

Definition put_db (db : Store.DB) : M unit :=
  fun w => (tt, {| w_db := db; w_requests := w_requests w; w_toasts := w_toasts w |}).

(** A write request: logged, then committed when the store accepts it. *)
Definition write (c : Rls.command) (t : Rls.table) (f : Store.DB -> Store.result Store.DB)
  : M (option Store.store_error) :=
  request c t ;;
  db ← get_db;
  match f db with
  | Store.Ok db' => put_db db' ;; mret None
  | Store.Err e => mret (Some e)
  end.

Definition run {A : Type} (m : M A) (w : world) : world := (m w).2.

Definition session (user : option User) : option uuid := u_id <$> user.

Definition role_of (profile : option Profile) : option role :=
  (fun p => up_role (pf_row p)) <$> profile.

(** [col.eq.${user?.id}]: the column holds the id of the signed-in user. *)
Definition is_user (user : option User) (ref : option uuid) : bool :=
  match user with
  | Some u => bool_decide (ref = Some (u_id u))
  | None => false
  end.

(** [s.trim()] on the white space of ASCII. *)
Fixpoint trim_start (s : string) : string :=
  match s with
  | EmptyString => EmptyString
  | String a r => if Ascii.is_space a then trim_start r else s
  end.

Definition trim (s : string) : string :=
  String.rev (trim_start (String.rev (trim_start s))).

(** A [date] column takes the text of a date input: the empty string is
    refused by the store, anything else the control produces is a date. *)
Definition to_date (s : string) : option string :=
  if bool_decide (s = "") then None else Some s.

(** [x || null] on a string. *)
Definition or_null (s : string) : option string :=
  if bool_decide (s = "") then None else Some s.

(** ** hooks/useRealTimeSync.ts *)
Module RealTime.

(** The subscription a view holds: table and row filter of the
    [postgres_changes] channel, event ['*']. *)
Record subscription := { sub_table : Rls.table; sub_filter : string }.

Definition user_filter (id : string) : string := "user_id=eq." +:+ id.

(** [filter || `user_id=eq.${user.id}`]: [undefined] and the empty string
    are falsy. *)
Definition useRealTimeSync (user : option User) (table : Rls.table) (filter : option string)
  : option subscription :=
  match user with
  | None => None
  | Some u =>
      Some {| sub_table := table;
              sub_filter :=
                match filter with
                | Some f => if bool_decide (f = "") then user_filter (u_id u) else f
                | None => user_filter (u_id u)
                end |}
  end.

(** [`user_id=eq.${user?.id}`] in the pages. *)
Definition page_user_filter (user : option User) : string :=
  user_filter (from_option u_id "undefined" user).

(** The [filter] argument of Projects, Tasks and LiveHost:

    [profile?.role === 'admin' ? undefined : `user_id=eq.${user?.id}`] *)
Definition page_filter (user : option User) (profile : option Profile) : option string :=
  if bool_decide (role_of profile = Some admin) then None
  else Some (page_user_filter user).

Definition page_subscription (table : Rls.table) (user : option User)
    (profile : option Profile) : option subscription :=
  useRealTimeSync user table (page_filter user profile).

(** A change event of the feed: the table and the owner column of the row. *)
Record change := { ch_table : Rls.table; ch_user_id : option uuid }.

(** The feed delivers the events of the table whose row matches the
    filter; [user_id=eq.<id>] is the one shape of filter the pages and the
    hook produce. *)
Definition delivers (s : subscription) (e : change) : bool :=
  bool_decide (ch_table e = sub_table s)
  && bool_decide (Some (sub_filter s) = user_filter <$> ch_user_id e).

(** The callback of the channel: every delivered event calls [onUpdate]. *)
Definition on_event {A : Type} (s : subscription) (onUpdate : M A) (e : change) : M unit :=
  if delivers s e then onUpdate ;; mret tt else mret tt.

End RealTime.

(** ** contexts/AuthContext.tsx *)
Module AuthContext.






(** [logActivity(aksi)]: the outcome of the insert is not looked at;
    [fresh] is the key drawn for the row. *)
Definition insert_activity (auth : option uuid) (id : uuid) (l : ActivityLog) (db : Store.DB)
  : Store.result Store.DB :=
  match Store.insert_row Rls.activity_log Store.activity_log_row Store.activity_log_constraints
          db auth id l (Store.tbl_activity_log db) with
  | Store.Ok m => Store.Ok (Store.set_activity_log db m)
  | Store.Err e => Store.Err e
  end.

Definition logActivity (user : option User) (aksi : string) (fresh : uuid) : M unit :=
  match user with
  | None => mret tt
  | Some u =>
      write Rls.INSERT Rls.activity_log
        (insert_activity (session user) fresh {| al_user_id := Some (u_id u); al_action := aksi |}) ;;
      mret tt
  end.

(** The fields of [Partial<UserProfile>] a caller may set. *)
Record Updates := { upd_nama : option string; upd_role : option role }.

Definition apply_updates (upd : Updates) (p : UserProfile) : UserProfile :=
  {| nama := default (nama p) (upd_nama upd); up_role := default (up_role p) (upd_role upd) |}.

Definition update_profile (auth : option uuid) (id : uuid) (upd : Updates) (db : Store.DB)
  : Store.result Store.DB :=
  match Store.update_row Rls.user_profiles Store.profile_row Store.profile_constraints
          db auth id (apply_updates upd) (Store.tbl_user_profiles db) with
  | Store.Ok m => Store.Ok (Store.set_user_profiles db m)
  | Store.Err e => Store.Err e
  end.

(** [updateProfile(updates)]: [true] when it returns, [false] when it
    rethrows the error of the store. *)
Definition updateProfile (user : option User) (updates : Updates) (fresh : uuid) : M bool :=
  match user with
  | None => mret true
  | Some u =>
      e ← write Rls.UPDATE Rls.user_profiles (update_profile (session user) (u_id u) updates);
      match e with
      | None =>
          logActivity user "Kemaskini profil" fresh ;;
          show (toast_success "Profil berjaya dikemaskini") ;;
          mret true
      | Some _ => show (toast_error "Ralat mengemas kini profil") ;; mret false
      end
  end.

(** What [signIn] and [signUp] hand to [supabase.auth]. *)
Inductive auth_call :=
| signInWithPassword (email password : string)
| auth_signUp (email password : string).

Definition signIn (email password : string) : auth_call :=
  signInWithPassword (trim email) password.

Definition signUp (email password nama : string) : auth_call :=
  auth_signUp (trim email) password.

End AuthContext.

(** ** pages/Settings.tsx *)
Module Settings.

Definition set_role (r : role) (p : UserProfile) : UserProfile :=
  {| nama := nama p; up_role := r |}.

(** [supabase.from('user_profiles').select('*')] *)
Definition fetchAllUsers (user : option User) (profile : option Profile)
  : M (gmap uuid UserProfile) :=
  if negb (bool_decide (role_of profile = Some admin)) then mret ∅
  else
    request Rls.SELECT Rls.user_profiles ;;
    db ← get_db;
    mret (Store.select_rows Rls.user_profiles Store.profile_row db (session user)
            (Store.tbl_user_profiles db)).

(** [.update({ role: newRole, updated_at }).eq('id', userId)] *)
Definition update_role (auth : option uuid) (userId : uuid) (newRole : role) (db : Store.DB)
  : Store.result Store.DB :=
  match Store.update_row Rls.user_profiles Store.profile_row Store.profile_constraints
          db auth userId (set_role newRole) (Store.tbl_user_profiles db) with
  | Store.Ok m => Store.Ok (Store.set_user_profiles db m)
  | Store.Err e => Store.Err e
  end.

Definition handleRoleChange (user : option User) (profile : option Profile)
    (confirm : bool) (userId : uuid) (newRole : role) : M unit :=
  if negb (bool_decide (role_of profile = Some admin)) then
    show (toast_error "Hanya admin boleh mengubah peranan pengguna")
  else if bool_decide (Some userId = u_id <$> user) then
    show (toast_error "Anda tidak boleh mengubah peranan anda sendiri")
  else if negb confirm then mret tt
  else
    e ← write Rls.UPDATE Rls.user_profiles (update_role (session user) userId newRole);
    match e with
    | None =>
        show (toast_success
                ("Peranan pengguna berjaya dikemaskini kepada "
                   +:+ (if bool_decide (newRole = admin) then "Admin" else "Pengguna"))) ;;
        fetchAllUsers user profile ;;
        mret tt
    | Some _ => show (toast_error "Ralat mengemas kini peranan pengguna")
    end.



End Settings.

(** ** pages/Tasks.tsx *)
Module Tasks.

Record FormData := {
  title : string;
  project_id : string;
  due_date : string;
  status_ : status;
  progress : Z
}.

(** [supabase.from('tasks').select(...)], narrowed to own and assigned
    rows for non-admins; the order by [created_at] goes with the timestamps. *)
Definition fetchTasks (user : option User) (profile : option Profile)
  : M (gmap uuid Task) :=
  request Rls.SELECT Rls.tasks ;;
  db ← get_db;
  let rows := Store.select_rows Rls.tasks Store.task_row db (session user)
                (Store.tbl_tasks db) in
  mret (if negb (bool_decide (role_of profile = Some admin))
        then filter (fun kv => is_user user (t_user_id kv.2) = true
                               ∨ is_user user (t_assigned_to kv.2) = true) rows
        else rows).

Definition update_task (auth : option uuid) (id : uuid) (f : Task -> Task) (db : Store.DB)
  : Store.result Store.DB :=
  match Store.update_row Rls.tasks Store.task_row Store.task_constraints
          db auth id f (Store.tbl_tasks db) with
  | Store.Ok m => Store.Ok (Store.set_tasks db m)
  | Store.Err e => Store.Err e
  end.

Definition insert_task (auth : option uuid) (id : uuid) (t : Task) (db : Store.DB)
  : Store.result Store.DB :=
  match Store.insert_row Rls.tasks Store.task_row Store.task_constraints
          db auth id t (Store.tbl_tasks db) with
  | Store.Ok m => Store.Ok (Store.set_tasks db m)
  | Store.Err e => Store.Err e
  end.

(** The columns the form writes:
    [{ ...formData, project_id: formData.project_id || null }]. *)
Definition apply_form (f : FormData) (d : string) (t : Task) : Task :=
  {| t_title := title f;
     t_project_id := or_null (project_id f);
     t_due_date := Some d;
     t_status := status_ f;
     t_assigned_to := t_assigned_to t;
     t_progress := progress f;
     t_user_id := t_user_id t |}.

Definition new_task (f : FormData) (d : string) (owner : uuid) : Task :=
  {| t_title := title f;
     t_project_id := or_null (project_id f);
     t_due_date := Some d;
     t_status := status_ f;
     t_assigned_to := None;
     t_progress := progress f;
     t_user_id := Some owner |}.

(** [handleSubmit]; [fresh] is the key [gen_random_uuid()] draws for an
    inserted row. *)
Definition handleSubmit (user : option User) (profile : option Profile)
    (formData : FormData) (editingTask : option (uuid * Task)) (fresh : uuid) : M unit :=
  match user with
  | None => mret tt
  | Some u =>
      e ← match editingTask with
          | Some editing =>
              write Rls.UPDATE Rls.tasks
                (fun db => match to_date (due_date formData) with
                           | None => Store.Err Store.invalid_text
                           | Some d => update_task (session user) editing.1
                                         (apply_form formData d) db
                           end)
          | None =>
              write Rls.INSERT Rls.tasks
                (fun db => match to_date (due_date formData) with
                           | None => Store.Err Store.invalid_text
                           | Some d => insert_task (session user) fresh
                                         (new_task formData d (u_id u)) db
                           end)
          end;
      match e with
      | None =>
          show (toast_success (match editingTask with
                               | Some _ => "Tugasan berjaya dikemaskini"
                               | None => "Tugasan berjaya ditambah"
                               end)) ;;
          fetchTasks user profile ;;
          mret tt
      | Some _ => show (toast_error "Ralat semasa menyimpan tugasan")
      end
  end.

(** [newProgress === 100 ? 'Completed' : newProgress > 0 ? 'Ongoing' : 'Not Started'] *)
Definition newStatus (newProgress : Z) : status :=
  if bool_decide (newProgress = 100%Z) then Completed
  else if bool_decide (0 < newProgress)%Z then Ongoing
  else NotStarted.

Definition set_progress (newProgress : Z) (t : Task) : Task :=
  {| t_title := t_title t;
     t_project_id := t_project_id t;
     t_due_date := t_due_date t;
     t_status := newStatus newProgress;
     t_assigned_to := t_assigned_to t;
     t_progress := newProgress;
     t_user_id := t_user_id t |}.

Definition updateProgress (user : option User) (profile : option Profile)
    (taskId : uuid) (newProgress : Z) : M unit :=
  e ← write Rls.UPDATE Rls.tasks
        (update_task (session user) taskId (set_progress newProgress));
  match e with
  | None =>
      fetchTasks user profile ;;
      show (toast_success "Kemajuan tugasan dikemaskini")
  | Some _ => show (toast_error "Ralat mengemas kini kemajuan")
  end.

(** [canEdit(task)] *)
Definition canEdit (user : option User) (profile : option Profile) (task : Task) : bool :=
  bool_decide (role_of profile = Some admin)
  || is_user user (t_user_id task)
  || is_user user (t_assigned_to task).

(** The three buttons under the progress bar of a task card. *)
Inductive button := minus25 | plus25 | selesai.

Definition button_progress (b : button) (task : Task) : Z :=
  match b with
  | minus25 => Z.max 0 (t_progress task - 25)
  | plus25 => Z.min 100 (t_progress task + 25)
  | selesai => 100
  end.

(** A click on a button of the card of [task]; the buttons are there when
    [canEdit(task)]. *)
Definition onClick (user : option User) (profile : option Profile) (task : uuid * Task)
    (b : button) : M unit :=
  if canEdit user profile task.2
  then updateProgress user profile task.1 (button_progress b task.2)
  else mret tt.

(** [handleDelete(id)]; [confirm] is the answer to the dialog. *)
Definition handleDelete (user : option User) (profile : option Profile) (confirm : bool)
    (id : uuid) : M unit :=
  if negb confirm then mret tt
  else
    e ← write Rls.DELETE Rls.tasks
          (fun db => Store.Ok
                       (Store.set_tasks db
                          (Store.delete_row Rls.tasks Store.task_row db (session user) id
                             (Store.tbl_tasks db))));
    match e with
    | None =>
        show (toast_success "Tugasan berjaya dipadam") ;;
        fetchTasks user profile ;;
        mret tt
    | Some _ => show (toast_error "Ralat semasa memadam tugasan")
    end.

End Tasks.

(** ** pages/Projects.tsx *)
Module Projects.

(** [supabase.from('projects').select('*')], narrowed to own rows for
    non-admins. *)
Definition fetchProjects (user : option User) (profile : option Profile)
  : M (gmap uuid Project) :=
  request Rls.SELECT Rls.projects ;;
  db ← get_db;
  let rows := Store.select_rows Rls.projects Store.project_row db (session user)
                (Store.tbl_projects db) in
  mret (if negb (bool_decide (role_of profile = Some admin))
        then filter (fun kv => is_user user (pr_user_id kv.2) = true) rows
        else rows).

(** [canEdit(project)] *)
Definition canEdit (user : option User) (profile : option Profile) (project : Project)
  : bool :=
  bool_decide (role_of profile = Some admin) || is_user user (pr_user_id project).

(** [handleDelete(id)]; [confirm] is the answer to the dialog. *)
Definition handleDelete (user : option User) (profile : option Profile) (confirm : bool)
    (id : uuid) : M unit :=
  if negb confirm then mret tt
  else
    e ← write Rls.DELETE Rls.projects
          (fun db => Store.Ok (Store.delete_project db (session user) id));
    match e with
    | None =>
        show (toast_success "Projek berjaya dipadam") ;;
        fetchProjects user profile ;;
        mret tt
    | Some _ => show (toast_error "Ralat semasa memadam projek")
    end.

End Projects.

(** ** pages/LiveHost.tsx *)
Module LiveHost.

Record FormData := {
  host_name : string;
  live_date : string;
  total_hours : Qc
}.

(** Rows by [live_date], latest first. *)
Definition later (a b : uuid * LiveManualLog) : Prop :=
  String.le (lm_live_date b.2) (lm_live_date a.2).

(** [supabase.from('live_manual_log').select('*')], narrowed to own rows
    for non-admins, [.order('live_date', { ascending: false })]. *)
Definition fetchLogs (user : option User) (profile : option Profile)
  : M (list (uuid * LiveManualLog)) :=
  request Rls.SELECT Rls.live_manual_log ;;
  db ← get_db;
  let rows := Store.select_rows Rls.live_manual_log Store.live_manual_log_row db
                (session user) (Store.tbl_live_manual_log db) in
  let mine := if negb (bool_decide (role_of profile = Some admin))
              then filter (fun kv => is_user user (lm_user_id kv.2) = true) rows
              else rows in
  mret (merge_sort later (map_to_list mine)).

Definition update_log (auth : option uuid) (id : uuid) (f : LiveManualLog -> LiveManualLog)
    (db : Store.DB) : Store.result Store.DB :=
  match Store.update_row Rls.live_manual_log Store.live_manual_log_row
          Store.live_manual_log_constraints db auth id f (Store.tbl_live_manual_log db) with
  | Store.Ok m => Store.Ok (Store.set_live_manual_log db m)
  | Store.Err e => Store.Err e
  end.

Definition insert_log (auth : option uuid) (id : uuid) (l : LiveManualLog) (db : Store.DB)
  : Store.result Store.DB :=
  match Store.insert_row Rls.live_manual_log Store.live_manual_log_row
          Store.live_manual_log_constraints db auth id l (Store.tbl_live_manual_log db) with
  | Store.Ok m => Store.Ok (Store.set_live_manual_log db m)
  | Store.Err e => Store.Err e
  end.

Definition apply_form (f : FormData) (d : string) (l : LiveManualLog) : LiveManualLog :=
  {| lm_user_id := lm_user_id l;
     lm_host_name := trim (host_name f);
     lm_live_date := d;
     lm_total_hours := total_hours f |}.

Definition new_log (f : FormData) (d : string) (owner : uuid) : LiveManualLog :=
  {| lm_user_id := Some owner;
     lm_host_name := trim (host_name f);
     lm_live_date := d;
     lm_total_hours := total_hours f |}.

(** [handleSubmit]; [fresh] is the key [gen_random_uuid()] draws for an
    inserted row. *)
Definition handleSubmit (user : option User) (profile : option Profile)
    (formData : FormData) (editingLog : option (uuid * LiveManualLog)) (fresh : uuid)
  : M unit :=
  match user with
  | None => mret tt
  | Some u =>
      if bool_decide (trim (host_name formData) = "") then
        show (toast_error "Nama host tidak boleh kosong")
      else if bool_decide (total_hours formData ≤ 0)%Qc then
        show (toast_error "Jumlah jam mestilah lebih dari 0")
      else
        e ← match editingLog with
            | Some editing =>
                write Rls.UPDATE Rls.live_manual_log
                  (fun db => match to_date (live_date formData) with
                             | None => Store.Err Store.invalid_text
                             | Some d => update_log (session user) editing.1
                                           (apply_form formData d) db
                             end)
            | None =>
                write Rls.INSERT Rls.live_manual_log
                  (fun db => match to_date (live_date formData) with
                             | None => Store.Err Store.invalid_text
                             | Some d => insert_log (session user) fresh
                                           (new_log formData d (u_id u)) db
                             end)
            end;
        match e with
        | None =>
            show (toast_success (match editingLog with
                                 | Some _ => "Log live berjaya dikemaskini"
                                 | None => "Log live berjaya ditambah"
                                 end)) ;;
            fetchLogs user profile ;;
            mret tt
        | Some _ => show (toast_error "Ralat semasa menyimpan log live")
        end
  end.

(** [Math.round(x)]: the nearest integer, halves upwards. *)
Definition Math_round (x : Qc) : Z := Qfloor (x + Q2Qc (1 # 2))%Qc.

(** [Math.round(x * 100) / 100] *)
Definition round2 (x : Qc) : Qc :=
  (Q2Qc (inject_Z (Math_round (x * Q2Qc (inject_Z 100)))) / Q2Qc (inject_Z 100))%Qc.



Section ThisWeek.
(** [new Date(s).getTime()] of a date string, and the clock reading
    [oneWeekAgo] (now, moved back seven calendar days). *)
Variable date_ms : string -> Z.
Variable oneWeekAgo : Z.


End ThisWeek.

(** [canEdit(log)] *)
Definition canEdit (user : option User) (profile : option Profile) (log : LiveManualLog)
  : bool :=
  bool_decide (role_of profile = Some admin) || is_user user (lm_user_id log).

(** [[...new Set(logs.map(log => log.host_name))].length] *)
Definition getUniqueHosts (logs : list (uuid * LiveManualLog)) : nat :=
  length (remove_dups ((fun log => lm_host_name log.2) <$> logs)).

End LiveHost.

(** ** pages/ContentTracker.tsx *)
Module ContentTracker.

Record FormData := {
  log_date : string;
  content_count : Z
}.

Definition later (a b : uuid * ContentLog) : Prop :=
  String.le (cl_log_date b.2) (cl_log_date a.2).

(** [.from('content_log').select('*').eq('user_id', user?.id)
     .order('log_date', { ascending: false })] *)
Definition fetchLogs (user : option User) : M (list (uuid * ContentLog)) :=
  request Rls.SELECT Rls.content_log ;;
  db ← get_db;
  let rows := Store.select_rows Rls.content_log Store.content_log_row db
                (session user) (Store.tbl_content_log db) in
  mret (merge_sort later
          (map_to_list (filter (fun kv => is_user user (cl_user_id kv.2) = true) rows))).

Definition update_log (auth : option uuid) (id : uuid) (f : ContentLog -> ContentLog)
    (db : Store.DB) : Store.result Store.DB :=
  match Store.update_row Rls.content_log Store.content_log_row
          Store.content_log_constraints db auth id f (Store.tbl_content_log db) with
  | Store.Ok m => Store.Ok (Store.set_content_log db m)
  | Store.Err e => Store.Err e
  end.

Definition insert_log (auth : option uuid) (id : uuid) (l : ContentLog) (db : Store.DB)
  : Store.result Store.DB :=
  match Store.insert_row Rls.content_log Store.content_log_row
          Store.content_log_constraints db auth id l (Store.tbl_content_log db) with
  | Store.Ok m => Store.Ok (Store.set_content_log db m)
  | Store.Err e => Store.Err e
  end.

Definition set_count (n : Z) (l : ContentLog) : ContentLog :=
  {| cl_user_id := cl_user_id l; cl_log_date := cl_log_date l; cl_content_count := n |}.

Definition new_log (f : FormData) (d : string) (owner : uuid) : ContentLog :=
  {| cl_user_id := Some owner; cl_log_date := d; cl_content_count := content_count f |}.

(** [logs.find(log => log.log_date === formData.log_date)] *)
Definition existingLog (logs : list (uuid * ContentLog)) (formData : FormData)
  : option (uuid * ContentLog) :=
  List.find (fun log => bool_decide (cl_log_date log.2 = log_date formData)) logs.

(** [handleSubmit]; [logs] is the list the view fetched last, [fresh] the
    key [gen_random_uuid()] draws for an inserted row. *)
Definition handleSubmit (user : option User) (logs : list (uuid * ContentLog))
    (formData : FormData) (editingLog : option (uuid * ContentLog)) (fresh : uuid)
  : M unit :=
  match user with
  | None => mret tt
  | Some u =>
      if bool_decide (is_Some (existingLog logs formData))
         && negb (bool_decide (is_Some editingLog)) then
        show (toast_error "Log untuk tarikh ini sudah wujud. Sila edit log yang sedia ada.")
      else
        e ← match editingLog with
            | Some editing =>
                write Rls.UPDATE Rls.content_log
                  (update_log (session user) editing.1 (set_count (content_count formData)))
            | None =>
                write Rls.INSERT Rls.content_log
                  (fun db => match to_date (log_date formData) with
                             | None => Store.Err Store.invalid_text
                             | Some d => insert_log (session user) fresh
                                           (new_log formData d (u_id u)) db
                             end)
            end;
        match e with
        | None =>
            show (toast_success (match editingLog with
                                 | Some _ => "Log content berjaya dikemaskini"
                                 | None => "Log content berjaya ditambah"
                                 end)) ;;
            fetchLogs user ;;
            mret tt
        | Some _ => show (toast_error "Ralat semasa menyimpan log content")
        end
  end.

End ContentTracker.

(** ** components/Auth/LoginForm.tsx *)
Module LoginForm.

(** [handleSubmit] ends with a message in the form or with a call of
    [signIn] or [signUp]. *)
Inductive outcome := setError (msg : string) | call (c : AuthContext.auth_call).

(** [password.length] is counted on the characters of ASCII. *)
Definition handleSubmit (isSignUp : bool) (email password nama : string) : outcome :=
  if bool_decide (trim email = "") || bool_decide (trim password = "") then
    setError "Sila masukkan email dan kata laluan"
  else if isSignUp && bool_decide (trim nama = "") then
    setError "Sila masukkan nama anda"
  else if bool_decide (String.length password < 6) then
    setError "Kata laluan mestilah sekurang-kurangnya 6 aksara"
  else if isSignUp then call (AuthContext.signUp email password nama)
  else call (AuthContext.signIn email password).

End LoginForm.

(** ** pages/Templates.tsx and the bucket of the migration *)
Module Templates.

(** [File]: MIME type and size in bytes. *)
Record File := { file_type : string; file_size : Z }.

Record FormData := {
  title : string;
  category_ : category;
  type_ : template_type;
  file : option File
}.

(** The row of [storage.buckets] the migration inserts. *)
Record Bucket := {
  bucket_public : bool;
  file_size_limit : Z;
  allowed_mime_types : list string
}.

Definition templates_bucket : Bucket :=
  {| bucket_public := true;
     file_size_limit := 10485760;
     allowed_mime_types :=
       ["image/jpeg"; "image/jpg"; "image/png"; "image/gif"; "image/webp";
        "application/pdf"] |}.

(** The bucket takes a file within its size limit and of a listed type. *)
Definition accepts (b : Bucket) (f : File) : bool :=
  bool_decide (file_size f ≤ file_size_limit b)%Z
  && bool_decide (file_type f ∈ allowed_mime_types b).

Definition allowedTypes (t : template_type) : list string :=
  match t with
  | image => ["image/jpeg"; "image/jpg"; "image/png"; "image/gif"; "image/webp"]
  | pdf => ["application/pdf"]
  end.

(** The checks of [handleSubmit] of a signed-in user, up to the upload:
    an error toast, or the file to upload, if any. *)
Inductive checked := refused (msg : string) | proceed (upload : option File).

Definition handleSubmit_checks (formData : FormData) (editingTemplate : option (uuid * Template))
  : checked :=
  if bool_decide (trim (title formData) = "") then
    refused "Tajuk template tidak boleh kosong"
  else if negb (bool_decide (is_Some editingTemplate))
          && negb (bool_decide (is_Some (file formData))) then
    refused "Sila pilih fail untuk dimuat naik"
  else
    match file formData with
    | Some f =>
        if negb (bool_decide (file_type f ∈ allowedTypes (type_ formData))) then
          refused ("Jenis fail tidak disokong. Sila pilih fail "
                     +:+ match type_ formData with image => "imej" | pdf => "PDF" end)
        else if bool_decide (10 * 1024 * 1024 < file_size f)%Z then
          refused "Saiz fail terlalu besar. Maksimum 10MB"
        else proceed (Some f)
    | None => proceed None
    end.

(** [canEdit(template)] *)
Definition canEdit (user : option User) (profile : option Profile) (template : Template)
  : bool :=
  bool_decide (role_of profile = Some admin) || is_user user (tp_uploaded_by template).

End Templates.

(** ** pages/Calendar.tsx *)
Module Calendar.

Section Month.
(** The dates from the first to the last day of the month on show. *)
Variable in_month : string -> bool.






End Month.

End Calendar.

(** ** pages/Analytics.tsx *)
Module Analytics.



Section Weekly.
Context {A : Type}.
(** The date of the Sunday that starts the week of a date, the label of
    the chart for it, and the two fields [processWeeklyData] is told to
    read. *)
Variable weekKey : string -> string.
Variable label : string -> string.
Variable value : A -> Qc.
Variable date : A -> string.
Variable is_total_hours : bool.

(** [if (!weeklyData[weekKey]) weeklyData[weekKey] = 0;
     weeklyData[weekKey] += log[field] || 0]; the keys of the object stay in
    the order in which they were first set. *)
Fixpoint add_to (weeklyData : list (string * Qc)) (k : string) (v : Qc)
  : list (string * Qc) :=
  match weeklyData with
  | [] => [(k, (0 + v)%Qc)]
  | (k', v') :: rest =>
      if bool_decide (k' = k) then (k', (v' + v)%Qc) :: rest
      else (k', v') :: add_to rest k v
  end.

Definition weekly (logs : list A) : list (string * Qc) :=
  foldl (fun weeklyData log => add_to weeklyData (weekKey (date log)) (value log)) [] logs.

Definition processWeeklyData (logs : list A) : list (string * Qc) :=
  (fun entry => (label entry.1,
                 if is_total_hours then LiveHost.round2 entry.2 else entry.2))
    <$> weekly logs.
End Weekly.

(** [contentLogs?.reduce((sum, log) => sum + log.content_count, 0) || 0] *)
Definition totalContent (contentLogs : list (uuid * ContentLog)) : Z :=
  foldl (fun sum log => (sum + cl_content_count log.2)%Z) 0%Z contentLogs.

(** [processWeeklyData(contentLogs || [], 'content_count', 'log_date')] *)
Definition weeklyContent (weekKey label : string -> string)
    (contentLogs : list (uuid * ContentLog)) : list (string * Qc) :=
  processWeeklyData weekKey label
    (fun log : uuid * ContentLog => Q2Qc (inject_Z (cl_content_count log.2)))
    (fun log => cl_log_date log.2) false contentLogs.

End Analytics.

(** * Vocabulary of the specification *)

(** The owned-resource tables of the data model.  Live session logs are the
    rows of [live_manual_log], the table the client reads and writes;
    [live_log] and the Malay tables of the first schema are not part of the
    data model (their last policies admit the owner only). *)
Definition owned_tables : list Rls.table :=
  [Rls.projects; Rls.tasks; Rls.calendar_notes; Rls.content_log;
   Rls.live_manual_log; Rls.templates; Rls.activity_log].

(** The policies in force once all migrations have run. *)
Definition deployed_policies : list Rls.policy :=
  let p n t c u k :=
    {| Rls.p_name := n; Rls.p_table := t; Rls.p_cmd := c; Rls.p_using := u; Rls.p_check := k |} in
  let both n t e := p n t Rls.ALL (Some e) (Some e) in
  [ both "Users can manage own profile" Rls.user_profiles (Rls.own Rls.c_id);
    both "Users can manage own live logs" Rls.live_log (Rls.own Rls.c_user_id);
    both "Users can manage own projects" Rls.projek (Rls.own Rls.c_user_id);
    both "Users can manage own tasks" Rls.tugasan
      (Rls.EOr (Rls.EUidEq Rls.c_user_id) (Rls.EUidEq Rls.c_ditugaskan_kepada));
    both "Users can manage own calendar notes" Rls.nota_kalendar (Rls.own Rls.c_user_id);
    p "Users can read own activity logs" Rls.aktiviti_log Rls.SELECT
      (Some (Rls.own Rls.c_user_id)) None;
    p "Users can insert own activity logs" Rls.aktiviti_log Rls.INSERT
      None (Some (Rls.own Rls.c_user_id));
    both "Users can manage own projects" Rls.projects (Rls.own_or_admin Rls.c_user_id);
    both "Users can manage own tasks" Rls.tasks
      (Rls.EOr (Rls.EOr (Rls.EUidEq Rls.c_user_id) (Rls.EUidEq Rls.c_assigned_to)) Rls.EIsAdmin);
    both "Users can manage own calendar notes" Rls.calendar_notes
      (Rls.own_or_admin Rls.c_user_id);
    both "Users can manage own content logs" Rls.content_log (Rls.own_or_admin Rls.c_user_id);
    both "Users can manage own live manual logs" Rls.live_manual_log
      (Rls.own_or_admin Rls.c_user_id);
    p "Users can read all templates" Rls.templates Rls.SELECT (Some Rls.ETrue) None;
    both "Users can manage own templates" Rls.templates (Rls.own_or_admin Rls.c_uploaded_by);
    p "Users can read own activity logs" Rls.activity_log Rls.SELECT
      (Some (Rls.own_or_admin Rls.c_user_id)) None;
    p "Users can insert own activity logs" Rls.activity_log Rls.INSERT
      None (Some (Rls.own Rls.c_user_id)) ].

(** The invariant the data model states for a task: progress 100 means
    Completed, progress 0 means Not Started, anything else Ongoing. *)
Definition status_invariant (t : Task) : Prop :=
  (t_progress t = 100%Z → t_status t = Completed)
  ∧ (t_progress t = 0%Z → t_status t = NotStarted)
  ∧ (t_progress t ≠ 100%Z → t_progress t ≠ 0%Z → t_status t = Ongoing).

(** A subscription is unfiltered when it delivers every change of its table. *)
Definition unfiltered (s : RealTime.subscription) : Prop :=
  ∀ e : RealTime.change,
    RealTime.ch_table e = RealTime.sub_table s → RealTime.delivers s e = true.

(** The pair of status and progress a task form submits meets the
    invariant. *)
Definition form_meets_invariant (f : Tasks.FormData) : Prop :=
  (Tasks.progress f = 100%Z → Tasks.status_ f = Completed)
  ∧ (Tasks.progress f = 0%Z → Tasks.status_ f = NotStarted)
  ∧ (Tasks.progress f ≠ 100%Z → Tasks.progress f ≠ 0%Z → Tasks.status_ f = Ongoing).




(** Sample data: the admin "a", the user "b" with the project Launch and the
    task Design, a template uploaded by "b" and two live sessions of "b" on
    the same day. *)
Module Scenario.

Definition A : User := {| u_id := "a"; u_email := Some "a@saffa.my" |}.
Definition B : User := {| u_id := "b"; u_email := Some "b@saffa.my" |}.

Definition row_A : UserProfile := {| nama := "a"; up_role := admin |}.
Definition row_B : UserProfile := {| nama := "b"; up_role := Role.user |}.

Definition profile_A : Profile := {| pf_id := "a"; pf_row := row_A |}.
Definition profile_B : Profile := {| pf_id := "b"; pf_row := row_B |}.

Definition launch : Project :=
  {| pr_name := "Launch"; pr_start_date := None; pr_end_date := None;
     pr_status := NotStarted; pr_user_id := Some "b" |}.

Definition design : Task :=
  {| t_title := "Design"; t_project_id := Some "p1"; t_due_date := None;
     t_status := NotStarted; t_assigned_to := None; t_progress := 0;
     t_user_id := Some "b" |}.

Definition banner : Template :=
  {| tp_title := "Banner"; tp_category := Product; tp_type := image;
     tp_file_url := None; tp_uploaded_by := Some "b"; tp_uploaded_at := "2025-06-29" |}.

Definition morning : LiveManualLog :=
  {| lm_user_id := Some "b"; lm_host_name := "Aina"; lm_live_date := "2025-06-29";
     lm_total_hours := Q2Qc (1 # 8) |}.

Definition content : ContentLog :=
  {| cl_user_id := Some "b"; cl_log_date := "2025-06-29"; cl_content_count := 3 |}.

Definition db : Store.DB :=
  {| Store.tbl_user_profiles := {[ "a" := row_A; "b" := row_B ]};
     Store.tbl_projects := {[ "p1" := launch ]};
     Store.tbl_tasks := {[ "t1" := design ]};
     Store.tbl_calendar_notes := ∅;
     Store.tbl_content_log := {[ "c1" := content ]};
     Store.tbl_live_manual_log := {[ "l1" := morning ]};
     Store.tbl_templates := {[ "f1" := banner ]};
     Store.tbl_activity_log := ∅ |}.

Definition w : world := {| w_db := db; w_requests := []; w_toasts := [] |}.

(** The edit form of Design with status Completed and the slider at 0. *)
Definition done_at_zero : Tasks.FormData :=
  {| Tasks.title := "Design"; Tasks.project_id := "p1"; Tasks.due_date := "2025-07-01";
     Tasks.status_ := Completed; Tasks.progress := 0 |}.



End Scenario.

(** ** Further vocabulary *)

(** The schema as the migrations before [fragrant_crystal] leave it. *)
Definition schema_before_fragrant_crystal : Rls.schema :=
  default Rls.empty_schema
    (Rls.exec_stmts Rls.empty_schema
       (Rls.initial_schema ++ Rls.sparkling_gate ++ Rls.young_forest
          ++ Rls.weathered_lantern ++ Rls.hidden_paper)).

(** The column holding the owner of a row. *)
Definition owner_column (t : Rls.table) : Rls.column :=
  match t with
  | Rls.templates => Rls.c_uploaded_by
  | _ => Rls.c_user_id
  end.

(** The tables of the data model with an ALL policy. *)
Definition writable_tables : list Rls.table :=
  [Rls.projects; Rls.tasks; Rls.calendar_notes; Rls.content_log;
   Rls.live_manual_log; Rls.templates].

(** Owner, assignee of a task, or admin. *)
Definition may_write (profiles : gmap uuid UserProfile) (P : uuid) (t : Rls.table)
    (R : Rls.row) : Prop :=
  R (owner_column t) = Some P
  ∨ (t = Rls.tasks ∧ R Rls.c_assigned_to = Some P)
  ∨ Rls.is_admin profiles P = true.

(** The policies in force before [fragrant_crystal]. *)
Definition policies_before_fragrant_crystal : list Rls.policy :=
  Eval vm_compute in Rls.policies schema_before_fragrant_crystal.

(** The cached profile tells the role the store holds for the signed-in
    user. *)
Definition in_sync (profile : option Profile) (u : User) (db : Store.DB) : Prop :=
  role_of profile = Some admin ↔ Rls.is_admin (Store.tbl_user_profiles db) (u_id u) = true.

(** The sum of the values of a chart. *)
Definition sum_values (entries : list (string * Qc)) : Qc :=
  foldr (fun entry acc => (entry.2 + acc)%Qc) 0%Qc entries.

(** * Properties *)

(** ** The deployed schema *)

Lemma migrations_succeed : is_Some (Rls.exec_stmts Rls.empty_schema Rls.migrations).
Proof. vm_compute. eauto. Qed.

Lemma current_policies : Rls.policies Rls.current_schema = deployed_policies.
Proof. vm_compute. reflexivity. Qed.

Lemma rls_on_current (t : Rls.table) : Rls.rls_on Rls.current_schema t = true.
Proof. destruct t; vm_compute; reflexivity. Qed.

Lemma existsb_applies (c : Rls.command) (t : Rls.table) (f : Rls.policy -> bool)
    (l : list Rls.policy) :
  existsb (fun p => Rls.applies c t p && f p) l = existsb f (List.filter (Rls.applies c t) l).
Proof.
  induction l as [|p l IH]; simpl; [reflexivity|].
  destruct (Rls.applies c t p); simpl; rewrite IH; reflexivity.
Qed.

Lemma passes_using_current profiles uid c t r :
  Rls.passes_using Rls.current_schema profiles (Some uid) c t r
  = existsb (fun p => Rls.eval profiles uid r (Rls.using_of p))
      (List.filter (Rls.applies c t) deployed_policies).
Proof.
  unfold Rls.passes_using.
  rewrite rls_on_current, current_policies. apply existsb_applies.
Qed.

Lemma passes_check_current profiles uid c t r :
  Rls.passes_check Rls.current_schema profiles (Some uid) c t r
  = existsb (fun p => Rls.eval profiles uid r (Rls.check_of p))
      (List.filter (Rls.applies c t) deployed_policies).
Proof.
  unfold Rls.passes_check.
  rewrite rls_on_current, current_policies. apply existsb_applies.
Qed.

Lemma no_session_no_access profiles c t r :
  Rls.passes_using Rls.current_schema profiles None c t r = false
  ∧ Rls.passes_check Rls.current_schema profiles None c t r = false.
Proof.
  unfold Rls.passes_using, Rls.passes_check. rewrite rls_on_current. done.
Qed.

(** Evaluates the policy predicates of the deployed schema at a given
    command and table, leaving the comparisons on the row. *)
Ltac rls_eval :=
  unfold Rls.can_read, Rls.can_select, Rls.can_insert, Rls.can_update,
    Rls.can_update_row, Rls.can_delete;
  rewrite ?passes_using_current, ?passes_check_current;
  repeat match goal with
    | |- context [List.filter (Rls.applies ?c ?t) deployed_policies] =>
        let l := eval vm_compute in (List.filter (Rls.applies c t) deployed_policies) in
        change (List.filter (Rls.applies c t) deployed_policies) with l
    end;
  cbn [existsb Rls.eval Rls.using_of Rls.check_of Rls.p_using Rls.p_check default
         from_option id orb andb].

Ltac bool_props :=
  rewrite ?orb_false_r; rewrite ?orb_true_iff, ?andb_true_iff, ?bool_decide_eq_true.

(** ** C1: who may read a row *)

(** C1. For a row [R] of an owned table other than templates, the principal
    [P] may read [R] exactly when [P] is the owner of the row, or the table
    is tasks and [P] is the assignee, or [P] has the admin role; a row of
    templates may be read by every authenticated principal. *)
Theorem can_read_owned_rows (profiles : gmap uuid UserProfile) (P : uuid)
    (t : Rls.table) (R : Rls.row) :
  t ∈ owned_tables →
  (t = Rls.templates → Rls.can_read profiles P t R = true)
  ∧ (t ≠ Rls.templates →
     (Rls.can_read profiles P t R = true ↔
        R Rls.c_user_id = Some P
        ∨ (t = Rls.tasks ∧ R Rls.c_assigned_to = Some P)
        ∨ Rls.is_admin profiles P = true)).
Proof.
  intros Hin. split.
  - intros ->. rls_eval. reflexivity.
  - intros Hne.
    assert (t = Rls.projects ∨ t = Rls.tasks ∨ t = Rls.calendar_notes
            ∨ t = Rls.content_log ∨ t = Rls.live_manual_log ∨ t = Rls.activity_log)
      as Hcases.
    { unfold owned_tables in Hin.
      repeat (apply elem_of_cons in Hin as [Hin|Hin]; [subst; tauto|]).
      by apply elem_of_nil in Hin. }
    destruct Hcases as [->|[->|[->|[->|[->| ->]]]]];
      rls_eval; bool_props; intuition (discriminate || congruence).
Qed.

Lemma can_read_owned_rows_witness :
  Rls.can_read {[ "a" := {| nama := "A"; up_role := admin |} ]} "a" Rls.tasks
    (Store.task_row "t1"
       {| t_title := "Design"; t_project_id := None; t_due_date := None;
          t_status := NotStarted; t_assigned_to := Some "c"; t_progress := 0;
          t_user_id := Some "b" |}) = true.
Proof.
  apply (can_read_owned_rows {[ "a" := {| nama := "A"; up_role := admin |} ]} "a" Rls.tasks).
  - unfold owned_tables. apply list_elem_of_further, list_elem_of_here.
  - discriminate.
  - right. right. vm_compute. reflexivity.
Defined.

(** ** C9: the activity log is append-only *)

(** C9. On activity_log, the principal [P] may insert a row exactly when the
    row's owner field is [P]; [P] may read a row exactly when [P] is its
    owner or has the admin role; and no principal may update or delete a
    row. *)
Theorem activity_log_append_only (profiles : gmap uuid UserProfile) (P : uuid)
    (R : Rls.row) :
  (Rls.can_insert Rls.current_schema profiles (Some P) Rls.activity_log R = true
     ↔ R Rls.c_user_id = Some P)
  ∧ (Rls.can_select Rls.current_schema profiles (Some P) Rls.activity_log R = true
     ↔ R Rls.c_user_id = Some P ∨ Rls.is_admin profiles P = true)
  ∧ (∀ R' : Rls.row,
       Rls.can_update Rls.current_schema profiles (Some P) Rls.activity_log R R' = false)
  ∧ Rls.can_delete Rls.current_schema profiles (Some P) Rls.activity_log R = false.
Proof.
  repeat split; try (rls_eval; bool_props; naive_solver).
  - intros R'. rls_eval. by rewrite andb_false_r.
  - rls_eval. by rewrite andb_false_r.
Qed.

(** ** The client monad *)

Lemma bind_eq {A B : Type} (m : M A) (f : A -> M B) (w : world) :
  (m ≫= f) w = f (m w).1 (m w).2.
Proof. unfold mbind, M_bind. destruct (m w); reflexivity. Qed.

Lemma write_eq (c : Rls.command) (t : Rls.table) (f : Store.DB -> Store.result Store.DB)
    (w : world) :
  write c t f w =
    match f (w_db w) with
    | Store.Ok db' =>
        (None, {| w_db := db'; w_requests := w_requests w ++ [(c, t)];
                  w_toasts := w_toasts w |})
    | Store.Err e =>
        (Some e, {| w_db := w_db w; w_requests := w_requests w ++ [(c, t)];
                    w_toasts := w_toasts w |})
    end.
Proof.
  unfold write, mbind, M_bind, request, get_db. cbn.
  destruct (f (w_db w)); reflexivity.
Qed.

(** Unfolds the primitives of the client monad. *)
Ltac run_client :=
  unfold run, mbind, M_bind, mret, M_ret, show, request, get_db, put_db;
  rewrite ?write_eq;
  cbn [fst snd w_db w_requests w_toasts].

(** ** C2: role changes *)

(** C2. When the requester's cached role is not admin, or the target is the
    requester, [handleRoleChange] shows an error toast, issues no request and
    leaves the store (so the target's role) as it was.  Whenever it does
    issue a request, the requester is admin and the target is another
    principal; and an admin who confirms the dialog for another principal
    does issue the update on user_profiles. *)
Theorem handleRoleChange_guard (user : option User) (profile : option Profile)
    (confirm : bool) (userId : uuid) (newRole : role) (w : world) :
  let w' := run (Settings.handleRoleChange user profile confirm userId newRole) w in
  (role_of profile ≠ Some admin ∨ Some userId = u_id <$> user →
     w_db w' = w_db w
     ∧ w_requests w' = w_requests w
     ∧ ∃ msg, w_toasts w' = w_toasts w ++ [toast_error msg])
  ∧ (w_requests w' ≠ w_requests w →
       role_of profile = Some admin ∧ Some userId ≠ u_id <$> user)
  ∧ (role_of profile = Some admin → Some userId ≠ u_id <$> user → confirm = true →
       ∃ rest, w_requests w' = w_requests w ++ (Rls.UPDATE, Rls.user_profiles) :: rest).
Proof.
  unfold run, Settings.handleRoleChange; cbn zeta.
  destruct (decide (role_of profile = Some admin)) as [Hadm|Hadm].
  2:{ rewrite bool_decide_eq_false_2 by done. cbn.
      split; [eauto|]. split; [done|]. intros ?; done. }
  rewrite (bool_decide_eq_true_2 _ Hadm). cbn [negb].
  destruct (decide (Some userId = u_id <$> user)) as [Hself|Hself].
  { rewrite (bool_decide_eq_true_2 _ Hself). cbn.
    split; [eauto|]. split; [done|]. intros ? ?; done. }
  rewrite (bool_decide_eq_false_2 _ Hself).
  split; [intros [?|?]; done|].
  split; [done|]. intros _ _ ->. cbn [negb].
  unfold Settings.fetchAllUsers. rewrite (bool_decide_eq_true_2 _ Hadm). cbn [negb].
  run_client.
  destruct (Settings.update_role _ _ _ _); cbn [fst snd w_requests].
  - rewrite <- app_assoc. eauto.
  - eauto.
Qed.

Lemma handleRoleChange_guard_witness :
  let w := {| w_db := {| Store.tbl_user_profiles :=
                           {[ "b" := {| nama := "B"; up_role := Role.user |} ]};
                         Store.tbl_projects := ∅; Store.tbl_tasks := ∅;
                         Store.tbl_calendar_notes := ∅; Store.tbl_content_log := ∅;
                         Store.tbl_live_manual_log := ∅; Store.tbl_templates := ∅;
                         Store.tbl_activity_log := ∅ |};
              w_requests := []; w_toasts := [] |} in
  let me := Some {| u_id := "b"; u_email := None |} in
  let mine := Some {| pf_id := "b"; pf_row := {| nama := "B"; up_role := Role.user |} |} in
  w_db (run (Settings.handleRoleChange me mine true "a" admin) w) = w_db w.
Proof.
  intros w me mine.
  apply (handleRoleChange_guard me mine true "a" admin w).
  left. discriminate.
Defined.

(** ** C3: realtime subscriptions *)

Lemma user_filter_nonempty (id : string) : RealTime.user_filter id ≠ "".
Proof. unfold RealTime.user_filter. intros H. discriminate H. Qed.

(** Whatever the role, a signed-in view subscribes with the filter on its
    own user id: the hook replaces the [undefined] the pages pass for admins
    by the default filter. *)
Lemma page_subscription_filter (table : Rls.table) (u : User) (profile : option Profile) :
  RealTime.page_subscription table (Some u) profile
  = Some {| RealTime.sub_table := table;
            RealTime.sub_filter := RealTime.user_filter (u_id u) |}.
Proof.
  unfold RealTime.page_subscription, RealTime.page_filter, RealTime.useRealTimeSync.
  destruct (bool_decide (role_of profile = Some admin)); [reflexivity|].
  unfold RealTime.page_user_filter. cbn [from_option].
  by rewrite bool_decide_eq_false_2 by apply user_filter_nonempty.
Qed.

(** Every delivered event runs the view's fetch. *)
Lemma on_event_refetches {A : Type} (s : RealTime.subscription) (onUpdate : M A)
    (e : RealTime.change) (w : world) :
  RealTime.delivers s e = true →
  run (RealTime.on_event s onUpdate e) w = run onUpdate w.
Proof.
  intros H. unfold RealTime.on_event. rewrite H. run_client.
  by destruct (onUpdate w).
Qed.

(** C3. The subscription the Projects view holds for the admin "a" carries
    the filter [user_id=eq.a]; a change of a project owned by "b" is not
    delivered, so the subscription is not unfiltered. *)
Theorem admin_feed_is_owner_filtered :
  let a := {| u_id := "a"; u_email := None |} in
  let pa := {| pf_id := "a"; pf_row := {| nama := "A"; up_role := admin |} |} in
  ∃ s, RealTime.page_subscription Rls.projects (Some a) (Some pa) = Some s
       ∧ RealTime.sub_filter s = "user_id=eq.a"
       ∧ RealTime.delivers s {| RealTime.ch_table := Rls.projects;
                                RealTime.ch_user_id := Some "b" |} = false
       ∧ ¬ unfiltered s.
Proof.
  eexists. split; [reflexivity|]. split; [reflexivity|]. split; [reflexivity|].
  intros H.
  specialize (H {| RealTime.ch_table := Rls.projects; RealTime.ch_user_id := Some "b" |}
                eq_refl).
  discriminate H.
Qed.

(** A signed-in view, whatever its role, receives exactly the changes of the
    rows its user owns. *)
Lemma own_feed_delivers (table : Rls.table) (u : User) (profile : option Profile)
    (s : RealTime.subscription) (e : RealTime.change) :
  RealTime.page_subscription table (Some u) profile = Some s →
  (RealTime.delivers s e = true
     ↔ RealTime.ch_table e = table ∧ RealTime.ch_user_id e = Some (u_id u)).
Proof.
  rewrite page_subscription_filter. intros [= <-].
  unfold RealTime.delivers. cbn [RealTime.sub_table RealTime.sub_filter].
  bool_props. split; intros [Ht Hu]; split; try done.
  - destruct (RealTime.ch_user_id e) as [o|]; [|done].
    cbn in Hu. injection Hu as Hu. unfold RealTime.user_filter in Hu.
    by apply String.app_inj in Hu as ->.
  - by rewrite Hu.
Qed.

(** ** Writes to tasks *)

Lemma tasks_using profiles uid c r :
  Rls.passes_using Rls.current_schema profiles (Some uid) c Rls.tasks r
  = bool_decide (r Rls.c_user_id = Some uid) || bool_decide (r Rls.c_assigned_to = Some uid)
    || Rls.is_admin profiles uid.
Proof. destruct c; rls_eval; by rewrite orb_false_r. Qed.

Lemma tasks_check profiles uid c r :
  Rls.passes_check Rls.current_schema profiles (Some uid) c Rls.tasks r
  = bool_decide (r Rls.c_user_id = Some uid) || bool_decide (r Rls.c_assigned_to = Some uid)
    || Rls.is_admin profiles uid.
Proof. destruct c; rls_eval; by rewrite orb_false_r. Qed.

(** An update that leaves owner and assignee alone goes through for whoever
    may update the row, provided the new row meets the constraints. *)
Lemma update_task_stores (auth : option uuid) (id : uuid) (f : Task -> Task)
    (db : Store.DB) (t : Task) :
  Store.tbl_tasks db !! id = Some t →
  Rls.can_update_row Rls.current_schema (Store.tbl_user_profiles db) auth Rls.tasks
    (Store.task_row id t) = true →
  t_user_id (f t) = t_user_id t →
  t_assigned_to (f t) = t_assigned_to t →
  Store.task_constraints db (Some t) (f t) = None →
  Tasks.update_task auth id f db
  = Store.Ok (Store.set_tasks db (<[id := f t]> (Store.tbl_tasks db))).
Proof.
  intros Hrow Hmay Hu Ha Hc.
  unfold Tasks.update_task, Store.update_row. rewrite Hrow, Hmay.
  destruct auth as [uid|].
  2:{ unfold Rls.can_update_row in Hmay.
      by rewrite (proj1 (no_session_no_access _ _ _ _)) in Hmay. }
  unfold Rls.can_update_row in Hmay. rewrite !tasks_using in Hmay.
  rewrite tasks_check. cbn [Store.task_row] in *. rewrite Hu, Ha.
  apply andb_true_iff in Hmay as [-> _]. by rewrite Hc.
Qed.

Lemma newStatus_cases (p : Z) :
  (p = 0 → Tasks.newStatus p = NotStarted)%Z
  ∧ (0 < p < 100 → Tasks.newStatus p = Ongoing)%Z
  ∧ (p = 100 → Tasks.newStatus p = Completed)%Z.
Proof.
  unfold Tasks.newStatus. repeat split; intros H; repeat case_bool_decide; done || lia.
Qed.

Lemma set_progress_constraints (db : Store.DB) (t : Task) (p : Z) :
  (0 ≤ p ≤ 100)%Z →
  Store.task_constraints db (Some t) (Tasks.set_progress p t) = None.
Proof.
  intros Hp. unfold Store.task_constraints, Store.fk_ok. cbn.
  rewrite !bool_decide_eq_true_2 by (done || lia). reflexivity.
Qed.

(** What [updateProgress] leaves in the store for a task the principal may
    update. *)
Lemma updateProgress_stores (user : option User) (profile : option Profile)
    (taskId : uuid) (p : Z) (w : world) (t : Task) :
  (0 ≤ p ≤ 100)%Z →
  Store.tbl_tasks (w_db w) !! taskId = Some t →
  Rls.can_update_row Rls.current_schema (Store.tbl_user_profiles (w_db w)) (session user)
    Rls.tasks (Store.task_row taskId t) = true →
  Store.tbl_tasks (w_db (run (Tasks.updateProgress user profile taskId p) w)) !! taskId
  = Some (Tasks.set_progress p t).
Proof.
  intros Hp Hrow Hmay. unfold Tasks.updateProgress, Tasks.fetchTasks. run_client.
  rewrite (update_task_stores (session user) taskId (Tasks.set_progress p) (w_db w) t
             Hrow Hmay eq_refl eq_refl (set_progress_constraints _ _ _ Hp)).
  cbn. apply lookup_insert_eq.
Qed.

(** ** C4: status follows progress in [updateProgress] *)

(** C4. For a progress value [p] in [0,100] and a task the principal may
    update, [updateProgress taskId p] stores progress [p] together with the
    status Not Started when [p = 0], Ongoing when [0 < p < 100] and Completed
    when [p = 100], and changes no other column; the status written is a
    function of [p] alone. *)
Theorem updateProgress_writes_status (user : option User) (profile : option Profile)
    (taskId : uuid) (p : Z) (w : world) (t : Task) :
  (0 ≤ p ≤ 100)%Z →
  Store.tbl_tasks (w_db w) !! taskId = Some t →
  Rls.can_update_row Rls.current_schema (Store.tbl_user_profiles (w_db w)) (session user)
    Rls.tasks (Store.task_row taskId t) = true →
  ∃ t', Store.tbl_tasks (w_db (run (Tasks.updateProgress user profile taskId p) w)) !! taskId
        = Some t'
        ∧ t_progress t' = p
        ∧ t_status t' = Tasks.newStatus p
        ∧ (p = 0 → t_status t' = NotStarted)%Z
        ∧ (0 < p < 100 → t_status t' = Ongoing)%Z
        ∧ (p = 100 → t_status t' = Completed)%Z
        ∧ t_title t' = t_title t ∧ t_project_id t' = t_project_id t
        ∧ t_due_date t' = t_due_date t ∧ t_assigned_to t' = t_assigned_to t
        ∧ t_user_id t' = t_user_id t.
Proof.
  intros Hp Hrow Hmay. exists (Tasks.set_progress p t).
  split; [by apply updateProgress_stores|].
  destruct (newStatus_cases p) as (H0 & H1 & H2). cbn. repeat split; auto.
Qed.

Lemma updateProgress_writes_status_witness :
  ∃ t', Store.tbl_tasks
          (w_db (run (Tasks.updateProgress (Some Scenario.B) (Some Scenario.profile_B)
                        "t1" 100) Scenario.w)) !! "t1" = Some t'
        ∧ t_progress t' = 100%Z
        ∧ t_status t' = Completed.
Proof.
  destruct (updateProgress_writes_status (Some Scenario.B) (Some Scenario.profile_B)
              "t1" 100 Scenario.w Scenario.design) as (t' & Hrow & Hp & _ & _ & _ & Hc & _).
  - lia.
  - vm_compute. reflexivity.
  - vm_compute. reflexivity.
  - exists t'. auto.
Defined.

(** ** C5: the invariant and the two update paths *)

Lemma apply_form_stores (user : option User) (profile : option Profile)
    (formData : Tasks.FormData) (editing : uuid * Task) (fresh : uuid) (w : world)
    (u : User) (t : Task) :
  user = Some u →
  Store.tbl_tasks (w_db w) !! editing.1 = Some t →
  Rls.can_update_row Rls.current_schema (Store.tbl_user_profiles (w_db w)) (session user)
    Rls.tasks (Store.task_row editing.1 t) = true →
  Tasks.due_date formData ≠ "" →
  Store.task_constraints (w_db w) (Some t)
    (Tasks.apply_form formData (Tasks.due_date formData) t) = None →
  Store.tbl_tasks
    (w_db (run (Tasks.handleSubmit user profile formData (Some editing) fresh) w))
    !! editing.1
  = Some (Tasks.apply_form formData (Tasks.due_date formData) t).
Proof.
  intros -> Hrow Hmay Hdate Hc.
  unfold Tasks.handleSubmit, Tasks.fetchTasks, to_date. run_client.
  rewrite bool_decide_eq_false_2 by done.
  rewrite (update_task_stores (session (Some u)) editing.1
             (Tasks.apply_form formData (Tasks.due_date formData)) (w_db w) t
             Hrow Hmay eq_refl eq_refl Hc).
  cbn. apply lookup_insert_eq.
Qed.

(** C5, as stated, fails: the owner edits Design, picks Completed and leaves
    the slider at 0; the task is stored with status Completed at progress 0. *)
Lemma edit_form_breaks_invariant :
  ∃ t', Store.tbl_tasks
          (w_db (run (Tasks.handleSubmit (Some Scenario.B) (Some Scenario.profile_B)
                        Scenario.done_at_zero (Some ("t1", Scenario.design)) "t2")
                   Scenario.w)) !! "t1" = Some t'
        ∧ ¬ status_invariant t'.
Proof.
  eexists. split; [vm_compute; reflexivity|].
  intros (_ & H0 & _). specialize (H0 eq_refl). discriminate H0.
Qed.

(** C5, amended. For a task the principal may update: the progress buttons
    ([updateProgress] with a value in [0,100]) leave the stored task
    satisfying the invariant; the edit form stores the status and the
    progress of the form as submitted, so after an accepted submission the
    stored task satisfies the invariant exactly when the submitted pair
    does. *)
Theorem invariant_by_update_path (user : option User) (profile : option Profile)
    (id : uuid) (t : Task) (w : world) :
  Store.tbl_tasks (w_db w) !! id = Some t →
  Rls.can_update_row Rls.current_schema (Store.tbl_user_profiles (w_db w)) (session user)
    Rls.tasks (Store.task_row id t) = true →
  (∀ p : Z, (0 ≤ p ≤ 100)%Z →
     ∃ t', Store.tbl_tasks (w_db (run (Tasks.updateProgress user profile id p) w)) !! id
           = Some t'
           ∧ status_invariant t')
  ∧ (∀ (formData : Tasks.FormData) (old : Task) (fresh : uuid),
       is_Some user →
       Tasks.due_date formData ≠ "" →
       Store.task_constraints (w_db w) (Some t)
         (Tasks.apply_form formData (Tasks.due_date formData) t) = None →
       ∃ t', Store.tbl_tasks
               (w_db (run (Tasks.handleSubmit user profile formData (Some (id, old)) fresh) w))
               !! id = Some t'
             ∧ t_status t' = Tasks.status_ formData
             ∧ t_progress t' = Tasks.progress formData
             ∧ (status_invariant t' ↔ form_meets_invariant formData)).
Proof.
  intros Hrow Hmay. split.
  - intros p Hp. exists (Tasks.set_progress p t).
    split; [by apply updateProgress_stores|].
    destruct (newStatus_cases p) as (H0 & H1 & H2).
    unfold status_invariant. cbn. repeat split; intros; auto. apply H1. lia.
  - intros formData old fresh [u Hu] Hdate Hc.
    exists (Tasks.apply_form formData (Tasks.due_date formData) t).
    split; [by apply (apply_form_stores user profile formData (id, old) fresh w u t)|].
    split; [reflexivity|]. split; [reflexivity|].
    unfold status_invariant, form_meets_invariant. cbn. tauto.
Qed.

Lemma invariant_by_update_path_witness :
  ∃ t', Store.tbl_tasks
          (w_db (run (Tasks.updateProgress (Some Scenario.B) (Some Scenario.profile_B)
                        "t1" 50) Scenario.w)) !! "t1" = Some t'
        ∧ status_invariant t'.
Proof.
  destruct (invariant_by_update_path (Some Scenario.B) (Some Scenario.profile_B) "t1"
              Scenario.design Scenario.w) as [Hbuttons _].
  - vm_compute. reflexivity.
  - vm_compute. reflexivity.
  - apply Hbuttons. lia.
Defined.

(** ** C6: deleting a profile *)

Lemma profile_using profiles uid c id r :
  Rls.passes_using Rls.current_schema profiles (Some uid) c Rls.user_profiles
    (Store.profile_row id r) = bool_decide (id = uid).
Proof.
  destruct c; rls_eval; cbn [Store.profile_row]; rewrite orb_false_r;
    apply bool_decide_ext; naive_solver.
Qed.

Lemma profile_check profiles uid c id r :
  Rls.passes_check Rls.current_schema profiles (Some uid) c Rls.user_profiles
    (Store.profile_row id r) = bool_decide (id = uid).
Proof.
  destruct c; rls_eval; cbn [Store.profile_row]; rewrite orb_false_r;
    apply bool_decide_ext; naive_solver.
Qed.

(** A principal with a profile row may delete it. *)
Lemma delete_own_profile (db : Store.DB) (p : uuid) :
  is_Some (Store.tbl_user_profiles db !! p) →
  Store.delete_profile db (Some p) p = Store.cascade_delete_profile p db.
Proof.
  intros [r Hr]. unfold Store.delete_profile, Store.deletes. rewrite Hr.
  unfold Rls.can_delete. rewrite !profile_using.
  by rewrite bool_decide_eq_true_2.
Qed.

Lemma keep_lookup {R : Type} (p : uuid) (owner : R -> option uuid) (m : gmap uuid R)
    (id : uuid) (r : R) :
  Store.keep p owner m !! id = Some r ↔ m !! id = Some r ∧ owner r ≠ Some p.
Proof.
  unfold Store.keep. rewrite map_lookup_filter_Some. cbn.
  unfold Store.owned_by. by rewrite bool_decide_eq_false.
Qed.

(** C6. Deleting the profile [p] removes the profile row and every project,
    task, calendar note, content log and live session log owned by [p]
    (rows of other owners stay), while every template stays, with
    [uploaded_by] set to NULL where it was [p] and unchanged otherwise. *)
Theorem delete_profile_cascades (db : Store.DB) (p : uuid) :
  is_Some (Store.tbl_user_profiles db !! p) →
  let db' := Store.delete_profile db (Some p) p in
  Store.tbl_user_profiles db' !! p = None
  ∧ (∀ id r, Store.tbl_projects db' !! id = Some r
             ↔ Store.tbl_projects db !! id = Some r ∧ pr_user_id r ≠ Some p)
  ∧ (∀ id r, Store.tbl_tasks db' !! id = Some r → t_user_id r ≠ Some p)
  ∧ (∀ id r, Store.tbl_calendar_notes db' !! id = Some r
             ↔ Store.tbl_calendar_notes db !! id = Some r ∧ cn_user_id r ≠ Some p)
  ∧ (∀ id r, Store.tbl_content_log db' !! id = Some r
             ↔ Store.tbl_content_log db !! id = Some r ∧ cl_user_id r ≠ Some p)
  ∧ (∀ id r, Store.tbl_live_manual_log db' !! id = Some r
             ↔ Store.tbl_live_manual_log db !! id = Some r ∧ lm_user_id r ≠ Some p)
  ∧ (∀ id t, Store.tbl_templates db !! id = Some t →
       ∃ t', Store.tbl_templates db' !! id = Some t'
             ∧ tp_uploaded_by t' = (if bool_decide (tp_uploaded_by t = Some p) then None
                                    else tp_uploaded_by t)
             ∧ tp_title t' = tp_title t ∧ tp_category t' = tp_category t
             ∧ tp_type t' = tp_type t ∧ tp_file_url t' = tp_file_url t
             ∧ tp_uploaded_at t' = tp_uploaded_at t)
  ∧ (∀ id, is_Some (Store.tbl_templates db' !! id) ↔ is_Some (Store.tbl_templates db !! id)).
Proof.
  intros Hp db'. subst db'. rewrite (delete_own_profile _ _ Hp).
  unfold Store.cascade_delete_profile.
  cbn [Store.tbl_user_profiles Store.tbl_projects Store.tbl_tasks Store.tbl_calendar_notes
         Store.tbl_content_log Store.tbl_live_manual_log Store.tbl_templates].
  split; [apply lookup_delete_eq|].
  split; [intros; apply keep_lookup|].
  split.
  { intros id r. rewrite lookup_fmap. intros Hr.
    apply fmap_Some in Hr as (r0 & Hr0 & ->).
    apply map_lookup_filter_Some in Hr0 as [_ Hc]. cbn in Hc.
    unfold Store.task_cascades in Hc. apply orb_false_iff in Hc as [Hc _].
    unfold Store.owned_by in Hc. by apply bool_decide_eq_false in Hc. }
  split; [intros; apply keep_lookup|].
  split; [intros; apply keep_lookup|].
  split; [intros; apply keep_lookup|].
  split.
  - intros id t Ht. exists (Store.orphan p t). rewrite lookup_fmap, Ht. done.
  - intros id. rewrite lookup_fmap. apply fmap_is_Some.
Qed.

Lemma delete_profile_cascades_witness :
  let db' := Store.delete_profile Scenario.db (Some "b") "b" in
  Store.tbl_user_profiles db' !! "b" = None
  ∧ Store.tbl_projects db' !! "p1" = None
  ∧ (∃ t', Store.tbl_templates db' !! "f1" = Some t' ∧ tp_uploaded_by t' = None).
Proof.
  destruct (delete_profile_cascades Scenario.db "b")
    as (Hprof & Hproj & _ & _ & _ & _ & Htpl & _).
  - vm_compute. eauto.
  - split; [exact Hprof|]. split.
    + destruct (Store.tbl_projects (Store.delete_profile Scenario.db (Some "b") "b") !! "p1")
        as [r|] eqn:Hr; [|reflexivity].
      apply Hproj in Hr as [Hr Hne]. vm_compute in Hr. injection Hr as <-.
      by destruct Hne.
    + destruct (Htpl "f1" Scenario.banner) as (t' & Ht' & Hby & _).
      * vm_compute. reflexivity.
      * exists t'. split; [exact Ht'|]. exact Hby.
Defined.

(** ** Writes to live_manual_log and content_log *)


Lemma owned_using profiles uid c t owner id :
  t = Rls.live_manual_log ∨ t = Rls.content_log →
  Rls.passes_using Rls.current_schema profiles (Some uid) c t (Store.owned_row owner id)
  = bool_decide (owner = Some uid) || Rls.is_admin profiles uid.
Proof.
  intros [-> | ->]; destruct c; rls_eval; cbn [Store.owned_row];
    by rewrite orb_false_r.
Qed.




(** ** C7: live session logs of one day *)














(** ** C8: one content log per date, checked in the client *)




(** ** C10: profiles created on first sign-in *)



(** Under the deployed policies an UPDATE on user_profiles reaches no row
    but the requester's own. *)
Lemma update_other_profile_noop (db : Store.DB) (auth : option uuid) (id : uuid)
    (f : UserProfile -> UserProfile) :
  auth ≠ Some id →
  Store.update_row Rls.user_profiles Store.profile_row Store.profile_constraints
    db auth id f (Store.tbl_user_profiles db)
  = Store.Ok (Store.tbl_user_profiles db).
Proof.
  intros Hne. unfold Store.update_row.
  destruct (Store.tbl_user_profiles db !! id) as [r|]; [|reflexivity].
  unfold Rls.can_update_row. destruct auth as [uid|].
  - rewrite !profile_using. rewrite bool_decide_eq_false_2 by congruence. reflexivity.
  - by rewrite (proj1 (no_session_no_access _ Rls.SELECT _ _)).
Qed.

Lemma set_user_profiles_id (db : Store.DB) :
  Store.set_user_profiles db (Store.tbl_user_profiles db) = db.
Proof. by destruct db. Qed.


Lemma logActivity_profiles (usr : option User) (aksi : string) (fresh : uuid) (w : world) :
  Store.tbl_user_profiles (w_db (run (AuthContext.logActivity usr aksi fresh) w))
  = Store.tbl_user_profiles (w_db w).
Proof.
  unfold AuthContext.logActivity. destruct usr as [u|]; [|reflexivity].
  run_client. unfold AuthContext.insert_activity.
  by destruct (Store.insert_row _ _ _ _ _ _ _ _).
Qed.








(** * Further properties *)

(** ** Write access *)

Lemma writable_cases (t : Rls.table) :
  t ∈ writable_tables →
  t = Rls.projects ∨ t = Rls.tasks ∨ t = Rls.calendar_notes
  ∨ t = Rls.content_log ∨ t = Rls.live_manual_log ∨ t = Rls.templates.
Proof.
  intros Hin. unfold writable_tables in Hin.
  repeat (apply elem_of_cons in Hin as [Hin|Hin]; [subst; tauto|]).
  by apply elem_of_nil in Hin.
Qed.

Ltac tasks_or_not :=
  match goal with
  | |- context [?t = Rls.tasks] =>
      first [ assert (t ≠ Rls.tasks) by discriminate
            | assert (t = Rls.tasks) by reflexivity ]
  end.

Lemma writable_using profiles P c t R :
  t ∈ writable_tables → c ≠ Rls.SELECT →
  Rls.passes_using Rls.current_schema profiles (Some P) c t R = true
  ↔ may_write profiles P t R.
Proof.
  intros Hin Hc. apply writable_cases in Hin. unfold may_write.
  destruct Hin as [->|[->|[->|[->|[->| ->]]]]]; cbn [owner_column]; tasks_or_not;
    destruct c; try (exfalso; apply Hc; reflexivity); clear Hc;
    rls_eval; repeat bool_props; tauto.
Qed.

Lemma writable_check profiles P c t R :
  t ∈ writable_tables → c ≠ Rls.SELECT →
  Rls.passes_check Rls.current_schema profiles (Some P) c t R = true
  ↔ may_write profiles P t R.
Proof.
  intros Hin Hc. apply writable_cases in Hin. unfold may_write.
  destruct Hin as [->|[->|[->|[->|[->| ->]]]]]; cbn [owner_column]; tasks_or_not;
    destruct c; try (exfalso; apply Hc; reflexivity); clear Hc;
    rls_eval; repeat bool_props; tauto.
Qed.

Lemma writable_select profiles P t R :
  t ∈ writable_tables → may_write profiles P t R →
  Rls.passes_using Rls.current_schema profiles (Some P) Rls.SELECT t R = true.
Proof.
  intros Hin. apply writable_cases in Hin. unfold may_write.
  destruct Hin as [->|[->|[->|[->|[->| ->]]]]]; cbn [owner_column]; tasks_or_not;
    rls_eval; repeat bool_props; tauto.
Qed.

Lemma writable_row profiles P c t R :
  t ∈ writable_tables → c ≠ Rls.SELECT →
  Rls.passes_using Rls.current_schema profiles (Some P) Rls.SELECT t R
  && Rls.passes_using Rls.current_schema profiles (Some P) c t R = true
  ↔ may_write profiles P t R.
Proof.
  intros Hin Hc. rewrite andb_true_iff, (writable_using _ _ _ _ _ Hin Hc).
  split; [tauto|]. intros Hw. split; [apply writable_select; assumption|exact Hw].
Qed.

(** X1. On the tables with an ALL policy, inserting a row, updating or
    deleting an existing row is permitted exactly for the owner (the uploader
    of a template), the assignee of a task, or an admin; an update is
    permitted exactly when both the existing and the new row qualify. *)
Theorem can_write_owned_rows (profiles : gmap uuid UserProfile) (P : uuid)
    (t : Rls.table) (R : Rls.row) :
  t ∈ writable_tables →
  (Rls.can_insert Rls.current_schema profiles (Some P) t R = true ↔ may_write profiles P t R)
  ∧ (Rls.can_update_row Rls.current_schema profiles (Some P) t R = true
     ↔ may_write profiles P t R)
  ∧ (Rls.can_delete Rls.current_schema profiles (Some P) t R = true
     ↔ may_write profiles P t R)
  ∧ (∀ R' : Rls.row,
       Rls.can_update Rls.current_schema profiles (Some P) t R R' = true
       ↔ may_write profiles P t R ∧ may_write profiles P t R').
Proof.
  intros Hin.
  unfold Rls.can_update, Rls.can_update_row, Rls.can_delete, Rls.can_insert.
  split; [apply writable_check; [exact Hin|discriminate]|].
  split; [apply writable_row; [exact Hin|discriminate]|].
  split; [apply writable_row; [exact Hin|discriminate]|].
  intros R'.
  rewrite andb_true_iff.
  rewrite (writable_row _ _ _ _ _ Hin), (writable_check _ _ _ _ _ Hin) by discriminate.
  reflexivity.
Qed.

Lemma can_write_owned_rows_witness :
  Rls.can_delete Rls.current_schema (Store.tbl_user_profiles Scenario.db) (Some "b")
    Rls.templates (Store.template_row "f1" Scenario.banner) = true.
Proof.
  assert (Rls.templates ∈ writable_tables) as Hin.
  { unfold writable_tables. repeat (apply list_elem_of_here || apply list_elem_of_further). }
  destruct (can_write_owned_rows (Store.tbl_user_profiles Scenario.db) "b" Rls.templates
              (Store.template_row "f1" Scenario.banner) Hin) as (_ & _ & Hdel & _).
  apply Hdel. left. reflexivity.
Defined.

(** X3. On user_profiles every command reaches the requester's own row and
    no other, whatever the requester's role. *)
Theorem profiles_own_row_only (profiles : gmap uuid UserProfile) (P id : uuid)
    (r : UserProfile) :
  (Rls.can_select Rls.current_schema profiles (Some P) Rls.user_profiles
     (Store.profile_row id r) = true ↔ id = P)
  ∧ (Rls.can_insert Rls.current_schema profiles (Some P) Rls.user_profiles
       (Store.profile_row id r) = true ↔ id = P)
  ∧ (Rls.can_update_row Rls.current_schema profiles (Some P) Rls.user_profiles
       (Store.profile_row id r) = true ↔ id = P)
  ∧ (Rls.can_delete Rls.current_schema profiles (Some P) Rls.user_profiles
       (Store.profile_row id r) = true ↔ id = P).
Proof.
  unfold Rls.can_select, Rls.can_insert, Rls.can_update_row, Rls.can_delete.
  rewrite !profile_using, profile_check, andb_diag.
  repeat split; try (apply bool_decide_eq_true_1); try (apply bool_decide_eq_true_2).
Qed.

(** ** The last migration *)

Lemma policies_before :
  Rls.policies schema_before_fragrant_crystal = policies_before_fragrant_crystal.
Proof. vm_compute. reflexivity. Qed.

Lemma rls_on_before (t : Rls.table) :
  Rls.rls_on schema_before_fragrant_crystal t = true.
Proof. destruct t; vm_compute; reflexivity. Qed.

Lemma passes_using_before profiles uid c t r :
  Rls.passes_using schema_before_fragrant_crystal profiles (Some uid) c t r
  = existsb (fun p => Rls.eval profiles uid r (Rls.using_of p))
      (List.filter (Rls.applies c t) policies_before_fragrant_crystal).
Proof.
  unfold Rls.passes_using.
  rewrite rls_on_before, policies_before. apply existsb_applies.
Qed.

Lemma passes_check_before profiles uid c t r :
  Rls.passes_check schema_before_fragrant_crystal profiles (Some uid) c t r
  = existsb (fun p => Rls.eval profiles uid r (Rls.check_of p))
      (List.filter (Rls.applies c t) policies_before_fragrant_crystal).
Proof.
  unfold Rls.passes_check.
  rewrite rls_on_before, policies_before. apply existsb_applies.
Qed.

(** Evaluates the policies that apply to a given command and table. *)
Ltac filter_eval :=
  repeat match goal with
    | |- context [List.filter (Rls.applies ?c ?t) ?l] =>
        let l' := eval vm_compute in (List.filter (Rls.applies c t) l) in
        change (List.filter (Rls.applies c t) l) with l'
    end;
  cbn [existsb Rls.eval Rls.using_of Rls.check_of Rls.p_using Rls.p_check default
         from_option id orb andb].

(** X2. The last migration only adds access for admins: whatever the
    schema before it lets a principal do, the deployed schema lets them do
    as well, and for a principal who is not admin the two schemas decide
    every command on every table and row alike. *)
Theorem fragrant_crystal_adds_admin_access (profiles : gmap uuid UserProfile) (P : uuid)
    (c : Rls.command) (t : Rls.table) (r : Rls.row) :
  (Rls.passes_using schema_before_fragrant_crystal profiles (Some P) c t r = true →
     Rls.passes_using Rls.current_schema profiles (Some P) c t r = true)
  ∧ (Rls.passes_check schema_before_fragrant_crystal profiles (Some P) c t r = true →
       Rls.passes_check Rls.current_schema profiles (Some P) c t r = true)
  ∧ (Rls.is_admin profiles P = false →
       Rls.passes_using Rls.current_schema profiles (Some P) c t r
       = Rls.passes_using schema_before_fragrant_crystal profiles (Some P) c t r
       ∧ Rls.passes_check Rls.current_schema profiles (Some P) c t r
         = Rls.passes_check schema_before_fragrant_crystal profiles (Some P) c t r).
Proof.
  rewrite !passes_using_current, !passes_check_current,
    !passes_using_before, !passes_check_before.
  destruct c, t; filter_eval;
    destruct (Rls.is_admin profiles P);
    repeat match goal with
      | |- context [bool_decide ?Q] => destruct (bool_decide Q)
      end;
    cbn [orb]; repeat split; intros; congruence.
Qed.

Lemma fragrant_crystal_adds_admin_access_witness :
  Rls.passes_using Rls.current_schema (Store.tbl_user_profiles Scenario.db) (Some "b")
    Rls.DELETE Rls.projects (Store.project_row "p1" Scenario.launch)
  = Rls.passes_using schema_before_fragrant_crystal (Store.tbl_user_profiles Scenario.db)
      (Some "b") Rls.DELETE Rls.projects (Store.project_row "p1" Scenario.launch).
Proof.
  destruct (fragrant_crystal_adds_admin_access (Store.tbl_user_profiles Scenario.db) "b"
              Rls.DELETE Rls.projects (Store.project_row "p1" Scenario.launch))
    as (_ & _ & Hsame).
  destruct Hsame as [Hu _]; [vm_compute; reflexivity|exact Hu].
Defined.

(** ** Writes the store turns down *)

Lemma not_true_false (b : bool) : b ≠ true → b = false.
Proof. by destruct b. Qed.

(** X4. On the tables with an ALL policy a principal who is neither owner,
    assignee nor admin with respect to a row cannot insert it (the statement
    fails on the policy), cannot hand a row of their own over into that
    state (likewise), and an update or delete aimed at such a row passes it
    by without an error. *)
Theorem foreign_rows_are_out_of_reach {R : Type} (t : Rls.table) (cols : uuid -> R -> Rls.row)
    (constraints : Store.DB -> option R -> R -> option Store.store_error)
    (db : Store.DB) (P id : uuid) (r : R) (m : gmap uuid R) :
  t ∈ writable_tables →
  ¬ may_write (Store.tbl_user_profiles db) P t (cols id r) →
  Store.insert_row t cols constraints db (Some P) id r m = Store.Err Store.rls_violation
  ∧ (∀ f old, m !! id = Some old →
       may_write (Store.tbl_user_profiles db) P t (cols id old) → f old = r →
       Store.update_row t cols constraints db (Some P) id f m
       = Store.Err Store.rls_violation)
  ∧ (m !! id = Some r →
       (∀ f, Store.update_row t cols constraints db (Some P) id f m = Store.Ok m)
       ∧ Store.deletes t cols db (Some P) id m = false).
Proof.
  intros Hin Hno.
  assert (∀ c, c ≠ Rls.SELECT →
            Rls.passes_check Rls.current_schema (Store.tbl_user_profiles db) (Some P) c t
              (cols id r) = false) as Hcheck.
  { intros c Hc. apply not_true_false. by rewrite writable_check. }
  assert (∀ c, c ≠ Rls.SELECT →
            Rls.passes_using Rls.current_schema (Store.tbl_user_profiles db) (Some P)
              Rls.SELECT t (cols id r)
            && Rls.passes_using Rls.current_schema (Store.tbl_user_profiles db) (Some P) c t
                 (cols id r) = false) as Husing.
  { intros c Hc. apply not_true_false. by rewrite writable_row. }
  split; [|split].
  - unfold Store.insert_row, Rls.can_insert. by rewrite Hcheck.
  - intros f old Hold Hmay <-. unfold Store.update_row, Rls.can_update_row. rewrite Hold.
    rewrite (proj2 (writable_row _ _ Rls.UPDATE _ _ Hin ltac:(discriminate)) Hmay).
    by rewrite Hcheck.
  - intros Hr. split.
    + intros f. unfold Store.update_row, Rls.can_update_row. rewrite Hr.
      by rewrite Husing.
    + unfold Store.deletes, Rls.can_delete. rewrite Hr. by apply Husing.
Qed.

Lemma foreign_rows_are_out_of_reach_witness :
  Store.deletes Rls.tasks Store.task_row Scenario.db (Some "c") "t1"
    (Store.tbl_tasks Scenario.db) = false.
Proof.
  assert (Rls.tasks ∈ writable_tables) as Hin.
  { unfold writable_tables. repeat (apply list_elem_of_here || apply list_elem_of_further). }
  assert (¬ may_write (Store.tbl_user_profiles Scenario.db) "c" Rls.tasks
            (Store.task_row "t1" Scenario.design)) as Hno.
  { unfold may_write. vm_compute. intros [H|[[_ H]|H]]; discriminate H. }
  destruct (foreign_rows_are_out_of_reach Rls.tasks Store.task_row Store.task_constraints
              Scenario.db "c" "t1" Scenario.design (Store.tbl_tasks Scenario.db) Hin Hno)
    as (_ & _ & Hrow).
  destruct Hrow as [_ Hdel]; [vm_compute; reflexivity|exact Hdel].
Defined.

(** ** The admin's view of user_profiles *)

Lemma select_profiles_lookup (db : Store.DB) (auth : option uuid) (id : uuid)
    (p : UserProfile) :
  Store.select_rows Rls.user_profiles Store.profile_row db auth (Store.tbl_user_profiles db)
    !! id = Some p
  ↔ auth = Some id ∧ Store.tbl_user_profiles db !! id = Some p.
Proof.
  unfold Store.select_rows. rewrite map_lookup_filter_Some. cbn [fst snd].
  unfold Store.visible, Rls.can_select. destruct auth as [uid|].
  - rewrite profile_using, bool_decide_eq_true. naive_solver.
  - rewrite (proj1 (no_session_no_access _ Rls.SELECT _ _)). naive_solver.
Qed.

(** X5. An admin who confirms a role change for another principal gets the
    success toast and the list of users is fetched again, yet the store is
    as it was: the update reaches no row. *)
Theorem handleRoleChange_reports_success_without_change (user : option User)
    (profile : option Profile) (userId : uuid) (newRole : role) (w : world) :
  role_of profile = Some admin →
  Some userId ≠ u_id <$> user →
  let w' := run (Settings.handleRoleChange user profile true userId newRole) w in
  w_db w' = w_db w
  ∧ w_requests w'
    = w_requests w ++ [(Rls.UPDATE, Rls.user_profiles); (Rls.SELECT, Rls.user_profiles)]
  ∧ w_toasts w'
    = w_toasts w ++ [toast_success
                       ("Peranan pengguna berjaya dikemaskini kepada "
                          +:+ (if bool_decide (newRole = admin) then "Admin" else "Pengguna"))].
Proof.
  intros Hadm Hother. cbv zeta.
  unfold Settings.handleRoleChange, Settings.fetchAllUsers.
  rewrite (bool_decide_eq_true_2 _ Hadm), (bool_decide_eq_false_2 _ Hother). cbn [negb].
  run_client. unfold Settings.update_role.
  rewrite update_other_profile_noop by (intros Heq; apply Hother; by rewrite <- Heq).
  rewrite set_user_profiles_id. cbn [fst snd w_db w_requests w_toasts].
  split; [reflexivity|]. split; [by rewrite <- app_assoc|reflexivity].
Qed.

Lemma handleRoleChange_reports_success_without_change_witness :
  Store.tbl_user_profiles
    (w_db (run (Settings.handleRoleChange (Some Scenario.A) (Some Scenario.profile_A) true
                  "b" admin) Scenario.w)) !! "b"
  = Some Scenario.row_B.
Proof.
  destruct (handleRoleChange_reports_success_without_change (Some Scenario.A)
              (Some Scenario.profile_A) "b" admin Scenario.w) as (Hdb & _).
  - reflexivity.
  - discriminate.
  - cbv zeta in Hdb. rewrite Hdb. vm_compute. reflexivity.
Defined.

(** X6. The list of users [fetchAllUsers] obtains holds the requester's own
    profile row and nothing else, and only when the cached role is admin. *)
Theorem fetchAllUsers_own_row_only (user : option User) (profile : option Profile)
    (w : world) (id : uuid) (p : UserProfile) :
  (Settings.fetchAllUsers user profile w).1 !! id = Some p
  ↔ role_of profile = Some admin
    ∧ session user = Some id
    ∧ Store.tbl_user_profiles (w_db w) !! id = Some p.
Proof.
  unfold Settings.fetchAllUsers. case_bool_decide as Hadm; cbn [negb].
  - rewrite !bind_eq. unfold request, get_db. cbn [fst snd mret M_ret w_db].
    rewrite select_profiles_lookup. tauto.
  - cbn [mret M_ret fst]. rewrite lookup_empty. split; [done|tauto].
Qed.

(** X7. [updateProfile] stores whatever fields it is given in the caller's
    own row, the role included: called with role admin it leaves the caller
    admin. *)
Theorem updateProfile_writes_any_field (u : User) (updates : AuthContext.Updates)
    (fresh : uuid) (w : world) (p : UserProfile) :
  Store.tbl_user_profiles (w_db w) !! u_id u = Some p →
  let w' := run (AuthContext.updateProfile (Some u) updates fresh) w in
  Store.tbl_user_profiles (w_db w') !! u_id u = Some (AuthContext.apply_updates updates p)
  ∧ (AuthContext.upd_role updates = Some admin →
       Rls.is_admin (Store.tbl_user_profiles (w_db w')) (u_id u) = true).
Proof.
  intros Hp. cbv zeta.
  assert (Store.tbl_user_profiles
            (w_db (run (AuthContext.updateProfile (Some u) updates fresh) w)) !! u_id u
          = Some (AuthContext.apply_updates updates p)) as Hrow.
  { unfold AuthContext.updateProfile.
    assert (∀ w1 : world,
              Store.tbl_user_profiles
                (w_db ((AuthContext.logActivity (Some u) "Kemaskini profil" fresh
                          ≫= λ _, show (toast_success "Profil berjaya dikemaskini")
                          ≫= λ _, mret true) w1).2)
              = Store.tbl_user_profiles (w_db w1)) as Hlog.
    { intros w1. rewrite !bind_eq. cbn [mret M_ret show snd w_db].
      apply (logActivity_profiles (Some u) "Kemaskini profil" fresh w1). }
    unfold run. rewrite bind_eq, write_eq.
    unfold AuthContext.update_profile, Store.update_row. rewrite Hp.
    unfold Rls.can_update_row. cbn [session fmap option_fmap option_map].
    rewrite !profile_using, profile_check, bool_decide_eq_true_2 by done.
    cbn [andb Store.profile_constraints fst snd]. rewrite Hlog.
    cbn [w_db Store.tbl_user_profiles Store.set_user_profiles].
    apply lookup_insert_eq. }
  split; [exact Hrow|].
  intros Hrole. unfold Rls.is_admin. rewrite Hrow. cbn.
  unfold AuthContext.apply_updates. cbn. rewrite Hrole. reflexivity.
Qed.

Lemma updateProfile_writes_any_field_witness :
  Rls.is_admin
    (Store.tbl_user_profiles
       (w_db (run (AuthContext.updateProfile (Some Scenario.B)
                     {| AuthContext.upd_nama := None; AuthContext.upd_role := Some admin |}
                     "x1") Scenario.w))) "b" = true.
Proof.
  destruct (updateProfile_writes_any_field Scenario.B
              {| AuthContext.upd_nama := None; AuthContext.upd_role := Some admin |}
              "x1" Scenario.w Scenario.row_B) as [_ Hadm].
  - vm_compute. reflexivity.
  - apply Hadm. reflexivity.
Defined.

(** ** Tasks and the deletion of a profile *)

Lemma task_cascades_false (p : uuid) (projs : gmap uuid Project) (t : Task) :
  Store.task_cascades p projs t = false
  ↔ t_user_id t ≠ Some p
    ∧ ∀ pid pr, t_project_id t = Some pid → projs !! pid = Some pr → pr_user_id pr ≠ Some p.
Proof.
  unfold Store.task_cascades, Store.owned_by.
  rewrite orb_false_iff, bool_decide_eq_false.
  destruct (t_project_id t) as [pid|].
  2:{ split; [intros [Hu _]; split; [exact Hu|discriminate]|intros [Hu _]; by split]. }
  destruct (projs !! pid) as [pr|] eqn:Hpr.
  - rewrite bool_decide_eq_false. split.
    + intros [Hu Ho]. split; [exact Hu|]. intros pid' pr' [= <-]. rewrite Hpr.
      by intros [= <-].
    + intros [Hu Ho]. split; [exact Hu|]. by apply (Ho pid pr).
  - split; [|intros [Hu _]; by split].
    intros [Hu _]. split; [exact Hu|]. intros pid' pr' [= <-]. by rewrite Hpr.
Qed.

(** X8. After the deletion of the profile [p] the tasks left are those
    that neither belong to [p] nor hang under a project of [p], whoever owns
    them; each is as before except that an assignment to [p] is cleared.
    The activity log keeps the rows of the other principals. *)
Theorem delete_profile_tasks (db : Store.DB) (p : uuid) :
  is_Some (Store.tbl_user_profiles db !! p) →
  let db' := Store.delete_profile db (Some p) p in
  (∀ id t', Store.tbl_tasks db' !! id = Some t'
            ↔ ∃ t, Store.tbl_tasks db !! id = Some t
                   ∧ t_user_id t ≠ Some p
                   ∧ (∀ pid pr, t_project_id t = Some pid →
                        Store.tbl_projects db !! pid = Some pr → pr_user_id pr ≠ Some p)
                   ∧ t' = Store.unassign p t)
  ∧ (∀ id t', Store.tbl_tasks db' !! id = Some t' → t_assigned_to t' ≠ Some p)
  ∧ (∀ id l, Store.tbl_activity_log db' !! id = Some l
             ↔ Store.tbl_activity_log db !! id = Some l ∧ al_user_id l ≠ Some p).
Proof.
  intros Hp db'. subst db'. rewrite (delete_own_profile _ _ Hp).
  unfold Store.cascade_delete_profile. cbn [Store.tbl_tasks Store.tbl_activity_log].
  assert (∀ id t', (Store.unassign p <$>
                      filter (λ kv, Store.task_cascades p (Store.tbl_projects db) kv.2 = false)
                        (Store.tbl_tasks db)) !! id = Some t'
            ↔ ∃ t, Store.tbl_tasks db !! id = Some t
                   ∧ t_user_id t ≠ Some p
                   ∧ (∀ pid pr, t_project_id t = Some pid →
                        Store.tbl_projects db !! pid = Some pr → pr_user_id pr ≠ Some p)
                   ∧ t' = Store.unassign p t) as Htasks.
  { intros id t'. rewrite lookup_fmap, fmap_Some. split.
    - intros (t & Ht & ->). apply map_lookup_filter_Some in Ht as [Ht Hc].
      cbn [snd] in Hc. apply task_cascades_false in Hc as [Hu Hproj]. eauto.
    - intros (t & Ht & Hu & Hproj & ->). exists t. split; [|reflexivity].
      apply map_lookup_filter_Some. split; [exact Ht|].
      cbn [snd]. apply task_cascades_false. eauto. }
  split; [exact Htasks|]. split.
  - intros id t' Ht'. apply Htasks in Ht' as (t & _ & _ & _ & ->).
    cbn [Store.unassign t_assigned_to]. unfold Store.null_if.
    case_bool_decide; [discriminate|assumption].
  - intros. apply keep_lookup.
Qed.

Lemma delete_profile_tasks_witness :
  Store.tbl_tasks (Store.delete_profile Scenario.db (Some "a") "a") !! "t1"
  = Some Scenario.design.
Proof.
  destruct (delete_profile_tasks Scenario.db "a") as (Htasks & _).
  - vm_compute. eauto.
  - cbv zeta in Htasks. apply Htasks. exists Scenario.design.
    split; [vm_compute; reflexivity|]. split; [discriminate|]. split.
    + intros pid pr [= <-]. vm_compute. intros [= <-]. discriminate.
    + vm_compute. reflexivity.
Defined.

(** ** What the forms write *)

Lemma update_row_result {R : Type} (t : Rls.table) (cols : uuid -> R -> Rls.row)
    (constraints : Store.DB -> option R -> R -> option Store.store_error)
    (db : Store.DB) (auth : option uuid) (id : uuid) (f : R -> R) (m m' : gmap uuid R) :
  Store.update_row t cols constraints db auth id f m = Store.Ok m' →
  m' = m
  ∨ ∃ r, m !! id = Some r ∧ m' = <[id := f r]> m
         ∧ Rls.can_update Rls.current_schema (Store.tbl_user_profiles db) auth t
             (cols id r) (cols id (f r)) = true
         ∧ constraints db (Some r) (f r) = None.
Proof.
  unfold Store.update_row, Rls.can_update.
  destruct (m !! id) as [r|]; [|intros [= <-]; by left].
  destruct (Rls.can_update_row _ _ _ _ _) eqn:Hrow; [|intros [= <-]; by left].
  destruct (Rls.passes_check _ _ _ _ _ _) eqn:Hcheck; [|discriminate].
  destruct (constraints db (Some r) (f r)) eqn:Hc; [discriminate|].
  intros [= <-]. right. exists r. rewrite Hrow, Hcheck.
  repeat split; assumption || reflexivity.
Qed.


Lemma update_row_keeps {R A : Type} (g : R -> A) (t : Rls.table) (cols : uuid -> R -> Rls.row)
    (constraints : Store.DB -> option R -> R -> option Store.store_error)
    (db : Store.DB) (auth : option uuid) (id : uuid) (f : R -> R) (m m' : gmap uuid R) :
  (∀ r, g (f r) = g r) →
  Store.update_row t cols constraints db auth id f m = Store.Ok m' →
  ∀ k, g <$> m' !! k = g <$> m !! k.
Proof.
  intros Hg Hupd k. apply update_row_result in Hupd as [->|(r & Hr & -> & _)]; [reflexivity|].
  destruct (decide (k = id)) as [->|Hne].
  - rewrite lookup_insert_eq, Hr. cbn. by rewrite Hg.
  - by rewrite lookup_insert_ne.
Qed.

(** What [handleSubmit] of the live log page leaves in the store. *)
Lemma live_handleSubmit_db (u : User) (profile : option Profile)
    (formData : LiveHost.FormData) (editingLog : option (uuid * LiveManualLog))
    (fresh : uuid) (w : world) (db' : Store.DB) :
  db' = w_db (run (LiveHost.handleSubmit (Some u) profile formData editingLog fresh) w) →
  db' = w_db w
  ∨ (trim (LiveHost.host_name formData) ≠ ""
     ∧ (0 < LiveHost.total_hours formData)%Qc
     ∧ LiveHost.live_date formData ≠ ""
     ∧ match editingLog with
       | Some editing =>
           LiveHost.update_log (Some (u_id u)) editing.1
             (LiveHost.apply_form formData (LiveHost.live_date formData)) (w_db w)
           = Store.Ok db'
       | None =>
           LiveHost.insert_log (Some (u_id u)) fresh
             (LiveHost.new_log formData (LiveHost.live_date formData) (u_id u)) (w_db w)
           = Store.Ok db'
       end).
Proof.
  intros ->. unfold LiveHost.handleSubmit, LiveHost.fetchLogs, to_date.
  case_bool_decide as Hhost; [left; reflexivity|].
  case_bool_decide as Hhours; [left; reflexivity|].
  apply Qcnot_le_lt in Hhours.
  destruct editingLog as [editing|]; run_client;
    (case_bool_decide as Hdate; [left; reflexivity|]);
    cbn [session fmap option_fmap option_map u_id].
  - destruct (LiveHost.update_log _ _ _ _) as [db'|e] eqn:Hupd; cbn [fst snd w_db];
      [right; repeat split; assumption|left; reflexivity].
  - destruct (LiveHost.insert_log _ _ _ _) as [db'|e] eqn:Hins; cbn [fst snd w_db];
      [right; repeat split; assumption|left; reflexivity].
Qed.



(** What [handleSubmit] of the tasks page leaves in the store in edit mode. *)
Lemma tasks_edit_db (u : User) (profile : option Profile) (formData : Tasks.FormData)
    (editing : uuid * Task) (fresh : uuid) (w : world) (db' : Store.DB) :
  db' = w_db (run (Tasks.handleSubmit (Some u) profile formData (Some editing) fresh) w) →
  db' = w_db w
  ∨ Tasks.update_task (Some (u_id u)) editing.1
      (Tasks.apply_form formData (Tasks.due_date formData)) (w_db w) = Store.Ok db'.
Proof.
  intros ->. unfold Tasks.handleSubmit, Tasks.fetchTasks, to_date. run_client.
  case_bool_decide as Hdate; [left; reflexivity|].
  cbn [session fmap option_fmap option_map u_id].
  destruct (Tasks.update_task _ _ _ _) as [db'|e] eqn:Hupd; cbn [fst snd w_db];
    [right; reflexivity|left; reflexivity].
Qed.

(** What [handleSubmit] of the content page leaves in the store in edit mode. *)
Lemma content_edit_db (u : User) (logs : list (uuid * ContentLog))
    (formData : ContentTracker.FormData) (editing : uuid * ContentLog) (fresh : uuid)
    (w : world) (db' : Store.DB) :
  db' = w_db (run (ContentTracker.handleSubmit (Some u) logs formData (Some editing) fresh) w) →
  db' = w_db w
  ∨ ContentTracker.update_log (Some (u_id u)) editing.1
      (ContentTracker.set_count (ContentTracker.content_count formData)) (w_db w)
    = Store.Ok db'.
Proof.
  intros ->. unfold ContentTracker.handleSubmit, ContentTracker.fetchLogs.
  rewrite (bool_decide_eq_true_2 (is_Some (Some editing))) by (by eexists).
  rewrite andb_false_r. run_client.
  cbn [session fmap option_fmap option_map u_id].
  destruct (ContentTracker.update_log _ _ _ _) as [db'|e] eqn:Hupd; cbn [fst snd w_db];
    [right; reflexivity|left; reflexivity].
Qed.

(** X10. Saving the edit form of a task or of a live log never changes
    who owns a row, nor the assignee of a task, and neither adds nor removes
    a row, whoever submits it. *)
Theorem edit_forms_keep_owner (u : User) (profile : option Profile) (fresh : uuid)
    (w : world) :
  (∀ (formData : Tasks.FormData) (editing : uuid * Task) (id : uuid),
     (λ t, (t_user_id t, t_assigned_to t))
       <$> Store.tbl_tasks
             (w_db (run (Tasks.handleSubmit (Some u) profile formData (Some editing) fresh) w))
           !! id
     = (λ t, (t_user_id t, t_assigned_to t)) <$> Store.tbl_tasks (w_db w) !! id)
  ∧ (∀ (formData : LiveHost.FormData) (editing : uuid * LiveManualLog) (id : uuid),
       lm_user_id
         <$> Store.tbl_live_manual_log
               (w_db (run (LiveHost.handleSubmit (Some u) profile formData (Some editing)
                             fresh) w)) !! id
       = lm_user_id <$> Store.tbl_live_manual_log (w_db w) !! id).
Proof.
  split.
  - intros formData editing id.
    remember (w_db (run (Tasks.handleSubmit (Some u) profile formData (Some editing) fresh) w))
      as db' eqn:Hdb'.
    destruct (tasks_edit_db u profile formData editing fresh w db' Hdb') as [->|Hwrite];
      [reflexivity|].
    clear Hdb'. unfold Tasks.update_task in Hwrite.
    destruct (Store.update_row _ _ _ _ _ _ _ _) as [m'|] eqn:Hupd; [|discriminate].
    injection Hwrite as <-. cbn [Store.tbl_tasks Store.set_tasks].
    eapply (update_row_keeps (λ t, (t_user_id t, t_assigned_to t))); [|exact Hupd].
    intros r. reflexivity.
  - intros formData editing id.
    remember (w_db (run (LiveHost.handleSubmit (Some u) profile formData (Some editing)
                           fresh) w)) as db' eqn:Hdb'.
    destruct (live_handleSubmit_db u profile formData (Some editing) fresh w db' Hdb')
      as [->|(_ & _ & _ & Hwrite)]; [reflexivity|].
    clear Hdb'. unfold LiveHost.update_log in Hwrite.
    destruct (Store.update_row _ _ _ _ _ _ _ _) as [m'|] eqn:Hupd; [|discriminate].
    injection Hwrite as <-. cbn [Store.tbl_live_manual_log Store.set_live_manual_log].
    eapply (update_row_keeps lm_user_id); [|exact Hupd].
    intros r. reflexivity.
Qed.

(** X11. In edit mode the content form writes the count and nothing else:
    the date typed into the form is not stored, a second log of that date
    raises no error, and no row is added; the one request it sends is the
    update. *)
Theorem content_edit_writes_count_only (u : User) (logs : list (uuid * ContentLog))
    (formData : ContentTracker.FormData) (editing : uuid * ContentLog) (fresh : uuid)
    (w : world) :
  let w' := run (ContentTracker.handleSubmit (Some u) logs formData (Some editing) fresh) w in
  (∀ id l', Store.tbl_content_log (w_db w') !! id = Some l' →
     ∃ l, Store.tbl_content_log (w_db w) !! id = Some l
          ∧ cl_log_date l' = cl_log_date l ∧ cl_user_id l' = cl_user_id l
          ∧ (l' = l
             ∨ id = editing.1
               ∧ cl_content_count l' = ContentTracker.content_count formData))
  ∧ (∀ id, is_Some (Store.tbl_content_log (w_db w') !! id)
           ↔ is_Some (Store.tbl_content_log (w_db w) !! id))
  ∧ ∃ rest, w_requests w' = w_requests w ++ (Rls.UPDATE, Rls.content_log) :: rest.
Proof.
  cbv zeta.
  assert (∀ db', db' = w_db (run (ContentTracker.handleSubmit (Some u) logs formData
                                    (Some editing) fresh) w) →
            Store.tbl_content_log db' = Store.tbl_content_log (w_db w)
            ∨ ∃ l, Store.tbl_content_log (w_db w) !! editing.1 = Some l
                   ∧ Store.tbl_content_log db'
                     = <[editing.1 := ContentTracker.set_count
                                        (ContentTracker.content_count formData) l]>
                         (Store.tbl_content_log (w_db w))) as Hdb.
  { intros db' Hdb'.
    destruct (content_edit_db u logs formData editing fresh w db' Hdb') as [->|Hwrite];
      [left; reflexivity|].
    clear Hdb'. unfold ContentTracker.update_log in Hwrite.
    destruct (Store.update_row _ _ _ _ _ _ _ _) as [m'|] eqn:Hupd; [|discriminate].
    injection Hwrite as <-. cbn [Store.tbl_content_log Store.set_content_log].
    apply update_row_result in Hupd as [->|(r & Hr & -> & _)]; [by left|].
    right. by exists r. }
  split; [|split].
  - intros id l' Hl'.
    destruct (Hdb _ eq_refl) as [Hsame|(l & Hl & Hnew)].
    + rewrite Hsame in Hl'. exists l'. auto.
    + rewrite Hnew in Hl'. destruct (decide (id = editing.1)) as [->|Hne].
      * rewrite lookup_insert_eq in Hl'. injection Hl' as <-. exists l.
        repeat split; [exact Hl|]. right. by split.
      * rewrite lookup_insert_ne in Hl' by done. exists l'. auto.
  - intros id. destruct (Hdb _ eq_refl) as [Hsame|(l & Hl & Hnew)].
    + by rewrite Hsame.
    + rewrite Hnew. destruct (decide (id = editing.1)) as [->|Hne].
      * rewrite lookup_insert_eq, Hl. split; eauto.
      * by rewrite lookup_insert_ne.
  - unfold ContentTracker.handleSubmit, ContentTracker.fetchLogs.
    rewrite (bool_decide_eq_true_2 (is_Some (Some editing))) by (by eexists).
    rewrite andb_false_r. run_client.
    destruct (ContentTracker.update_log _ _ _ _); cbn [fst snd w_requests].
    + rewrite <- app_assoc. eauto.
    + eauto.
Qed.

Lemma content_edit_writes_count_only_witness :
  cl_log_date
    <$> Store.tbl_content_log
          (w_db (run (ContentTracker.handleSubmit (Some Scenario.B) []
                        {| ContentTracker.log_date := "2025-07-01";
                           ContentTracker.content_count := 7 |}
                        (Some ("c1", Scenario.content)) "c2") Scenario.w)) !! "c1"
  = Some "2025-06-29".
Proof.
  pose proof (content_edit_writes_count_only Scenario.B []
                {| ContentTracker.log_date := "2025-07-01";
                   ContentTracker.content_count := 7 |}
                ("c1", Scenario.content) "c2" Scenario.w) as Hedit.
  cbv zeta in Hedit. destruct Hedit as (Hrows & Hsome & _).
  destruct (Hsome "c1") as [_ Hthere].
  assert (is_Some (Store.tbl_content_log (w_db Scenario.w) !! "c1")) as Hbefore
    by (vm_compute; eauto).
  destruct (Hthere Hbefore) as [l' Hl'].
  destruct (Hrows "c1" l' Hl') as (l & Hl & Hdate & _).
  transitivity (cl_log_date <$> Some l'); [f_equal; exact Hl'|].
  cbn. rewrite Hdate. vm_compute in Hl. injection Hl as <-. reflexivity.
Defined.

(** ** The guards of the pages and the policies *)

Lemma is_user_true (u : User) (ref : option uuid) :
  is_user (Some u) ref = true ↔ ref = Some (u_id u).
Proof. unfold is_user. apply bool_decide_eq_true. Qed.

Lemma in_writable (t : Rls.table) :
  t = Rls.projects ∨ t = Rls.tasks ∨ t = Rls.calendar_notes
  ∨ t = Rls.content_log ∨ t = Rls.live_manual_log ∨ t = Rls.templates →
  t ∈ writable_tables.
Proof.
  unfold writable_tables.
  intros [->|[->|[->|[->|[->| ->]]]]];
    repeat (apply list_elem_of_here || apply list_elem_of_further).
Qed.

Lemma tasks_canEdit_row (u : User) (profile : option Profile) (db : Store.DB) (c : Rls.command)
    (id : uuid) (t : Task) :
  in_sync profile u db → c ≠ Rls.SELECT →
  Tasks.canEdit (Some u) profile t
  = Rls.passes_using Rls.current_schema (Store.tbl_user_profiles db) (Some (u_id u))
      Rls.SELECT Rls.tasks (Store.task_row id t)
    && Rls.passes_using Rls.current_schema (Store.tbl_user_profiles db) (Some (u_id u))
         c Rls.tasks (Store.task_row id t).
Proof.
  intros Hsync Hc. apply Bool.eq_iff_eq_true.
  rewrite (writable_row _ _ c Rls.tasks _ (in_writable Rls.tasks ltac:(tauto)) Hc).
  unfold Tasks.canEdit, may_write. cbn [owner_column Store.task_row].
  rewrite !orb_true_iff, !is_user_true, bool_decide_eq_true.
  unfold in_sync in Hsync. tauto.
Qed.

Lemma projects_canEdit_row (u : User) (profile : option Profile) (db : Store.DB)
    (c : Rls.command) (id : uuid) (p : Project) :
  in_sync profile u db → c ≠ Rls.SELECT →
  Projects.canEdit (Some u) profile p
  = Rls.passes_using Rls.current_schema (Store.tbl_user_profiles db) (Some (u_id u))
      Rls.SELECT Rls.projects (Store.project_row id p)
    && Rls.passes_using Rls.current_schema (Store.tbl_user_profiles db) (Some (u_id u))
         c Rls.projects (Store.project_row id p).
Proof.
  intros Hsync Hc. apply Bool.eq_iff_eq_true.
  rewrite (writable_row _ _ c Rls.projects _ (in_writable Rls.projects ltac:(tauto)) Hc).
  unfold Projects.canEdit, may_write.
  cbn [owner_column Store.project_row Store.owned_row].
  rewrite !orb_true_iff, !is_user_true, bool_decide_eq_true.
  unfold in_sync in Hsync.
  assert (Rls.projects ≠ Rls.tasks) by discriminate. tauto.
Qed.

Lemma live_canEdit_row (u : User) (profile : option Profile) (db : Store.DB)
    (c : Rls.command) (id : uuid) (l : LiveManualLog) :
  in_sync profile u db → c ≠ Rls.SELECT →
  LiveHost.canEdit (Some u) profile l
  = Rls.passes_using Rls.current_schema (Store.tbl_user_profiles db) (Some (u_id u))
      Rls.SELECT Rls.live_manual_log (Store.live_manual_log_row id l)
    && Rls.passes_using Rls.current_schema (Store.tbl_user_profiles db) (Some (u_id u))
         c Rls.live_manual_log (Store.live_manual_log_row id l).
Proof.
  intros Hsync Hc. apply Bool.eq_iff_eq_true.
  rewrite (writable_row _ _ c Rls.live_manual_log _ (in_writable Rls.live_manual_log ltac:(tauto)) Hc).
  unfold LiveHost.canEdit, may_write.
  cbn [owner_column Store.live_manual_log_row Store.owned_row].
  rewrite !orb_true_iff, !is_user_true, bool_decide_eq_true.
  unfold in_sync in Hsync.
  assert (Rls.live_manual_log ≠ Rls.tasks) by discriminate. tauto.
Qed.

Lemma templates_canEdit_row (u : User) (profile : option Profile) (db : Store.DB)
    (c : Rls.command) (id : uuid) (t : Template) :
  in_sync profile u db → c ≠ Rls.SELECT →
  Templates.canEdit (Some u) profile t
  = Rls.passes_using Rls.current_schema (Store.tbl_user_profiles db) (Some (u_id u))
      Rls.SELECT Rls.templates (Store.template_row id t)
    && Rls.passes_using Rls.current_schema (Store.tbl_user_profiles db) (Some (u_id u))
         c Rls.templates (Store.template_row id t).
Proof.
  intros Hsync Hc. apply Bool.eq_iff_eq_true.
  rewrite (writable_row _ _ c Rls.templates _ (in_writable Rls.templates ltac:(tauto)) Hc).
  unfold Templates.canEdit, may_write.
  cbn [owner_column Store.template_row].
  rewrite !orb_true_iff, !is_user_true, bool_decide_eq_true.
  unfold in_sync in Hsync.
  assert (Rls.templates ≠ Rls.tasks) by discriminate. tauto.
Qed.

(** X12. While the cached profile tells the role the store holds,
    [canEdit] of the tasks, projects, live log and templates pages shows the
    edit and delete controls on exactly the rows the policies let the
    signed-in user update and delete. *)
Theorem canEdit_matches_policy (u : User) (profile : option Profile) (db : Store.DB) :
  in_sync profile u db →
  (∀ id t,
     Tasks.canEdit (Some u) profile t
     = Rls.can_update_row Rls.current_schema (Store.tbl_user_profiles db) (Some (u_id u))
         Rls.tasks (Store.task_row id t)
     ∧ Tasks.canEdit (Some u) profile t
       = Rls.can_delete Rls.current_schema (Store.tbl_user_profiles db) (Some (u_id u))
           Rls.tasks (Store.task_row id t))
  ∧ (∀ id p,
       Projects.canEdit (Some u) profile p
       = Rls.can_update_row Rls.current_schema (Store.tbl_user_profiles db) (Some (u_id u))
           Rls.projects (Store.project_row id p)
       ∧ Projects.canEdit (Some u) profile p
         = Rls.can_delete Rls.current_schema (Store.tbl_user_profiles db) (Some (u_id u))
             Rls.projects (Store.project_row id p))
  ∧ (∀ id l,
       LiveHost.canEdit (Some u) profile l
       = Rls.can_update_row Rls.current_schema (Store.tbl_user_profiles db) (Some (u_id u))
           Rls.live_manual_log (Store.live_manual_log_row id l)
       ∧ LiveHost.canEdit (Some u) profile l
         = Rls.can_delete Rls.current_schema (Store.tbl_user_profiles db) (Some (u_id u))
             Rls.live_manual_log (Store.live_manual_log_row id l))
  ∧ (∀ id t,
       Templates.canEdit (Some u) profile t
       = Rls.can_update_row Rls.current_schema (Store.tbl_user_profiles db) (Some (u_id u))
           Rls.templates (Store.template_row id t)
       ∧ Templates.canEdit (Some u) profile t
         = Rls.can_delete Rls.current_schema (Store.tbl_user_profiles db) (Some (u_id u))
             Rls.templates (Store.template_row id t)).
Proof.
  intros Hsync. unfold Rls.can_update_row, Rls.can_delete.
  split; [|split; [|split]]; intros id r; split.
  - apply tasks_canEdit_row; [exact Hsync|discriminate].
  - apply tasks_canEdit_row; [exact Hsync|discriminate].
  - apply projects_canEdit_row; [exact Hsync|discriminate].
  - apply projects_canEdit_row; [exact Hsync|discriminate].
  - apply live_canEdit_row; [exact Hsync|discriminate].
  - apply live_canEdit_row; [exact Hsync|discriminate].
  - apply templates_canEdit_row; [exact Hsync|discriminate].
  - apply templates_canEdit_row; [exact Hsync|discriminate].
Qed.

Lemma canEdit_matches_policy_witness :
  Rls.can_delete Rls.current_schema (Store.tbl_user_profiles Scenario.db) (Some "a")
    Rls.projects (Store.project_row "p1" Scenario.launch) = true.
Proof.
  destruct (canEdit_matches_policy Scenario.A (Some Scenario.profile_A) Scenario.db)
    as (_ & Hproj & _).
  - unfold in_sync. vm_compute. tauto.
  - destruct (Hproj "p1" Scenario.launch) as [_ Hdel].
    transitivity (Projects.canEdit (Some Scenario.A) (Some Scenario.profile_A) Scenario.launch);
      [symmetry; exact Hdel|vm_compute; reflexivity].
Defined.

(** ** Narrowing in the client *)

Lemma select_rows_lookup {R : Type} (t : Rls.table) (cols : uuid -> R -> Rls.row)
    (db : Store.DB) (auth : option uuid) (m : gmap uuid R) (id : uuid) (r : R) :
  Store.select_rows t cols db auth m !! id = Some r
  ↔ m !! id = Some r
    ∧ Rls.passes_using Rls.current_schema (Store.tbl_user_profiles db) auth Rls.SELECT t
        (cols id r) = true.
Proof. unfold Store.select_rows. rewrite map_lookup_filter_Some. reflexivity. Qed.

Lemma not_admin (profile : option Profile) (u : User) (db : Store.DB) :
  in_sync profile u db → role_of profile ≠ Some admin →
  Rls.is_admin (Store.tbl_user_profiles db) (u_id u) = false.
Proof. intros Hsync Hno. apply not_true_false. intros Hadm. by apply Hno, Hsync. Qed.

Lemma projects_select profiles uid id p :
  Rls.passes_using Rls.current_schema profiles (Some uid) Rls.SELECT Rls.projects
    (Store.project_row id p)
  = bool_decide (pr_user_id p = Some uid) || Rls.is_admin profiles uid.
Proof. rls_eval. cbn [Store.project_row Store.owned_row]. by rewrite orb_false_r. Qed.

(** X13. While the cached profile tells the role the store holds, the
    narrowing the tasks, projects and live log pages add to their queries
    removes nothing: each page obtains exactly the rows the policies show
    the signed-in user. *)
Theorem page_filters_are_redundant (u : User) (profile : option Profile) (w : world) :
  in_sync profile u (w_db w) →
  (Tasks.fetchTasks (Some u) profile w).1
  = Store.select_rows Rls.tasks Store.task_row (w_db w) (Some (u_id u))
      (Store.tbl_tasks (w_db w))
  ∧ (Projects.fetchProjects (Some u) profile w).1
    = Store.select_rows Rls.projects Store.project_row (w_db w) (Some (u_id u))
        (Store.tbl_projects (w_db w))
  ∧ (LiveHost.fetchLogs (Some u) profile w).1
    = merge_sort LiveHost.later
        (map_to_list
           (Store.select_rows Rls.live_manual_log Store.live_manual_log_row (w_db w)
              (Some (u_id u)) (Store.tbl_live_manual_log (w_db w)))).
Proof.
  intros Hsync.
  unfold Tasks.fetchTasks, Projects.fetchProjects, LiveHost.fetchLogs.
  unfold mbind, M_bind, mret, M_ret, request, get_db.
  cbn [fst snd w_db session fmap option_fmap option_map].
  destruct (decide (role_of profile = Some admin)) as [Hadm|Hadm].
  { rewrite (bool_decide_eq_true_2 _ Hadm). cbn [negb].
    split; [reflexivity|]. split; reflexivity. }
  rewrite (bool_decide_eq_false_2 _ Hadm). cbn [negb].
  pose proof (not_admin _ _ _ Hsync Hadm) as Hno.
  split; [|split].
  - apply map_filter_id. intros id t Ht. cbn [fst snd].
    apply select_rows_lookup in Ht as [_ Hvis].
    rewrite tasks_using, Hno, orb_false_r in Hvis. cbn [Store.task_row] in Hvis.
    apply orb_true_iff in Hvis as [Hv|Hv]; [left|right]; exact Hv.
  - apply map_filter_id. intros id p Hp. cbn [fst snd].
    apply select_rows_lookup in Hp as [_ Hvis].
    rewrite projects_select, Hno, orb_false_r in Hvis. exact Hvis.
  - f_equal. f_equal. apply map_filter_id. intros id l Hl. cbn [fst snd].
    apply select_rows_lookup in Hl as [_ Hvis]. unfold Store.live_manual_log_row in Hvis.
    rewrite owned_using in Hvis by (left; reflexivity).
    rewrite Hno, orb_false_r in Hvis. exact Hvis.
Qed.

Lemma page_filters_are_redundant_witness :
  (Tasks.fetchTasks (Some Scenario.B) (Some Scenario.profile_B) Scenario.w).1 !! "t1"
  = Some Scenario.design.
Proof.
  destruct (page_filters_are_redundant Scenario.B (Some Scenario.profile_B) Scenario.w)
    as (Htasks & _).
  - unfold in_sync. vm_compute. split; discriminate.
  - rewrite Htasks. vm_compute. reflexivity.
Defined.

(** ** The progress buttons *)

Lemma newStatus_invariant (p : Z) (t : Task) :
  (0 ≤ p)%Z → status_invariant (Tasks.set_progress p t).
Proof.
  intros Hp. unfold status_invariant, Tasks.set_progress, Tasks.newStatus. cbn.
  repeat case_bool_decide; repeat split; intros; first [reflexivity | exfalso; lia].
Qed.

Lemma button_progress_range (b : Tasks.button) (t : Task) :
  (0 ≤ t_progress t ≤ 100)%Z → (0 ≤ Tasks.button_progress b t ≤ 100)%Z.
Proof. destruct b; cbn; lia. Qed.

(** X14. A click on one of the three progress buttons of a task the page
    shows as editable, with the stored progress within 0..100 and the cached
    role in sync, stores the progress of the button (25 down but not below
    0, 25 up but not above 100, or 100) together with the status that goes
    with it; the new row meets the invariant and the range check. *)
Theorem progress_buttons_keep_invariant (u : User) (profile : option Profile)
    (b : Tasks.button) (id : uuid) (t : Task) (w : world) :
  in_sync profile u (w_db w) →
  Store.tbl_tasks (w_db w) !! id = Some t →
  (0 ≤ t_progress t ≤ 100)%Z →
  Tasks.canEdit (Some u) profile t = true →
  let t' := Tasks.set_progress (Tasks.button_progress b t) t in
  Store.tbl_tasks (w_db (run (Tasks.onClick (Some u) profile (id, t) b) w)) !! id = Some t'
  ∧ status_invariant t'
  ∧ (0 ≤ t_progress t' ≤ 100)%Z
  ∧ (b = Tasks.selesai → t_status t' = Completed).
Proof.
  intros Hsync Hrow Hrange Hcan. cbv zeta.
  pose proof (button_progress_range b t Hrange) as Hb.
  split; [|split; [apply newStatus_invariant; lia|split]].
  - unfold Tasks.onClick. cbn [fst snd]. rewrite Hcan.
    apply updateProgress_stores; [by apply button_progress_range|exact Hrow|].
    unfold Rls.can_update_row. cbn [session fmap option_fmap option_map].
    rewrite <- (tasks_canEdit_row u profile (w_db w) Rls.UPDATE id t Hsync); [exact Hcan|].
    discriminate.
  - cbn. by apply button_progress_range.
  - intros ->. reflexivity.
Qed.

Lemma progress_buttons_keep_invariant_witness :
  Store.tbl_tasks
    (w_db (run (Tasks.onClick (Some Scenario.B) (Some Scenario.profile_B)
                  ("t1", Scenario.design) Tasks.plus25) Scenario.w)) !! "t1"
  = Some (Tasks.set_progress 25 Scenario.design).
Proof.
  destruct (progress_buttons_keep_invariant Scenario.B (Some Scenario.profile_B)
              Tasks.plus25 "t1" Scenario.design Scenario.w) as (Hrow & _).
  - unfold in_sync. vm_compute. split; discriminate.
  - vm_compute. reflexivity.
  - vm_compute. split; discriminate.
  - vm_compute. reflexivity.
  - exact Hrow.
Defined.

(** ** Deleting tasks and projects *)

Lemma deletes_iff {R : Type} (t : Rls.table) (cols : uuid -> R -> Rls.row) (db : Store.DB)
    (P id : uuid) (m : gmap uuid R) (r : R) :
  t ∈ writable_tables → m !! id = Some r →
  Store.deletes t cols db (Some P) id m = true
  ↔ may_write (Store.tbl_user_profiles db) P t (cols id r).
Proof.
  intros Hin Hr. unfold Store.deletes, Rls.can_delete. rewrite Hr.
  apply writable_row; [exact Hin|discriminate].
Qed.

Lemma deletes_no_session {R : Type} (t : Rls.table) (cols : uuid -> R -> Rls.row)
    (db : Store.DB) (id : uuid) (m : gmap uuid R) :
  Store.deletes t cols db None id m = false.
Proof.
  unfold Store.deletes, Rls.can_delete. destruct (m !! id); [|reflexivity].
  by rewrite (proj1 (no_session_no_access _ Rls.SELECT _ _)).
Qed.

Lemma tasks_handleDelete_db (user : option User) (profile : option Profile) (id : uuid)
    (w : world) :
  run (Tasks.handleDelete user profile true id) w
  = {| w_db := Store.set_tasks (w_db w)
                 (Store.delete_row Rls.tasks Store.task_row (w_db w) (session user) id
                    (Store.tbl_tasks (w_db w)));
       w_requests := w_requests w ++ [(Rls.DELETE, Rls.tasks); (Rls.SELECT, Rls.tasks)];
       w_toasts := w_toasts w ++ [toast_success "Tugasan berjaya dipadam"] |}.
Proof.
  unfold Tasks.handleDelete, Tasks.fetchTasks. cbn [negb]. run_client.
  by rewrite <- app_assoc.
Qed.

(** X15. [handleDelete] of the tasks page does nothing when the dialog is
    declined.  Confirmed, it sends the delete and shows the success toast
    whatever the outcome; the task goes exactly when the requester is its
    owner, its assignee or an admin, and no other row of the store changes. *)
Theorem tasks_handleDelete_removes (user : option User) (profile : option Profile)
    (id : uuid) (w : world) :
  run (Tasks.handleDelete user profile false id) w = w
  ∧ let w' := run (Tasks.handleDelete user profile true id) w in
    w_toasts w' = w_toasts w ++ [toast_success "Tugasan berjaya dipadam"]
    ∧ w_db w' = Store.set_tasks (w_db w) (Store.tbl_tasks (w_db w'))
    ∧ (∀ k, k ≠ id → Store.tbl_tasks (w_db w') !! k = Store.tbl_tasks (w_db w) !! k)
    ∧ (∀ P t, session user = Some P → Store.tbl_tasks (w_db w) !! id = Some t →
         (Store.tbl_tasks (w_db w') !! id = None
          ↔ may_write (Store.tbl_user_profiles (w_db w)) P Rls.tasks (Store.task_row id t)))
    ∧ (session user = None → w_db w' = w_db w).
Proof.
  split; [reflexivity|]. cbv zeta. rewrite tasks_handleDelete_db.
  cbn [w_db w_toasts Store.tbl_tasks Store.set_tasks].
  split; [reflexivity|]. split; [reflexivity|].
  unfold Store.delete_row. split; [|split].
  - intros k Hk. destruct (Store.deletes _ _ _ _ _ _); [|reflexivity].
    by apply lookup_delete_ne.
  - intros P t -> Ht.
    rewrite <- (deletes_iff Rls.tasks Store.task_row (w_db w) P id _ t
                  (in_writable Rls.tasks ltac:(tauto)) Ht).
    destruct (Store.deletes _ _ _ _ _ _).
    + rewrite lookup_delete_eq. tauto.
    + rewrite Ht. split; discriminate.
  - intros ->. rewrite deletes_no_session. by destruct (w_db w).
Qed.

Lemma tasks_handleDelete_removes_witness :
  Store.tbl_tasks (w_db (run (Tasks.handleDelete (Some Scenario.A) (Some Scenario.profile_A)
                                true "t1") Scenario.w)) !! "t1" = None.
Proof.
  destruct (tasks_handleDelete_removes (Some Scenario.A) (Some Scenario.profile_A) "t1"
              Scenario.w) as (_ & Hon).
  cbv zeta in Hon. destruct Hon as (_ & _ & _ & Hgone & _).
  apply (Hgone "a" Scenario.design); [reflexivity|vm_compute; reflexivity|].
  right. right. vm_compute. reflexivity.
Defined.

Lemma projects_handleDelete_db (user : option User) (profile : option Profile) (id : uuid)
    (w : world) :
  w_db (run (Projects.handleDelete user profile true id) w)
  = Store.delete_project (w_db w) (session user) id
  ∧ w_toasts (run (Projects.handleDelete user profile true id) w)
    = w_toasts w ++ [toast_success "Projek berjaya dipadam"].
Proof.
  unfold Projects.handleDelete, Projects.fetchProjects. cbn [negb]. run_client.
  split; reflexivity.
Qed.

(** X16. A confirmed [handleDelete] of the projects page by the owner of
    the project or an admin removes the project and with it every task that
    refers to it, whoever owns the task; the other tasks and projects stay.
    Requested by anyone else it leaves the store as it was.  Both ways the
    success toast is shown. *)
Theorem projects_handleDelete_cascades (u : User) (profile : option Profile) (id : uuid)
    (pr : Project) (w : world) :
  Store.tbl_projects (w_db w) !! id = Some pr →
  let w' := run (Projects.handleDelete (Some u) profile true id) w in
  w_toasts w' = w_toasts w ++ [toast_success "Projek berjaya dipadam"]
  ∧ (may_write (Store.tbl_user_profiles (w_db w)) (u_id u) Rls.projects
       (Store.project_row id pr) →
     Store.tbl_projects (w_db w') = delete id (Store.tbl_projects (w_db w))
     ∧ ∀ k t, Store.tbl_tasks (w_db w') !! k = Some t
              ↔ Store.tbl_tasks (w_db w) !! k = Some t ∧ t_project_id t ≠ Some id)
  ∧ (¬ may_write (Store.tbl_user_profiles (w_db w)) (u_id u) Rls.projects
         (Store.project_row id pr) →
     w_db w' = w_db w).
Proof.
  intros Hpr. cbv zeta.
  destruct (projects_handleDelete_db (Some u) profile id w) as [-> ->].
  split; [reflexivity|].
  pose proof (deletes_iff Rls.projects Store.project_row (w_db w) (u_id u) id _ pr
                (in_writable Rls.projects ltac:(tauto)) Hpr) as Hdel.
  unfold Store.delete_project. cbn [session fmap option_fmap option_map].
  split.
  - intros Hmay. rewrite (proj2 Hdel Hmay).
    cbn [Store.cascade_delete_project Store.tbl_projects Store.tbl_tasks].
    split; [reflexivity|]. intros k t. apply map_lookup_filter_Some.
  - intros Hno. destruct (Store.deletes _ _ _ _ _ _); [|reflexivity].
    exfalso. apply Hno, Hdel. reflexivity.
Qed.

Lemma projects_handleDelete_cascades_witness :
  Store.tbl_tasks (w_db (run (Projects.handleDelete (Some Scenario.B)
                                (Some Scenario.profile_B) true "p1") Scenario.w)) !! "t1"
  = None.
Proof.
  destruct (projects_handleDelete_cascades Scenario.B (Some Scenario.profile_B) "p1"
              Scenario.launch Scenario.w) as (_ & Hgo & _).
  - vm_compute. reflexivity.
  - destruct Hgo as [_ Htasks]; [left; reflexivity|].
    cbv zeta in Htasks.
    destruct (Store.tbl_tasks
                (w_db (run (Projects.handleDelete (Some Scenario.B)
                              (Some Scenario.profile_B) true "p1") Scenario.w)) !! "t1")
      as [t|] eqn:Ht; [|reflexivity].
    apply Htasks in Ht as [Ht Hne]. vm_compute in Ht. injection Ht as <-.
    exfalso. apply Hne. reflexivity.
Defined.

(** ** Hosts of the live log page *)

(** X17. [getUniqueHosts] counts every host name once: it never exceeds
    the number of logs, equals it exactly when no name occurs twice, is the
    same for any order of the logs, and two lists of logs with the same host
    names give the same count. *)
Theorem getUniqueHosts_counts_names (logs logs' : list (uuid * LiveManualLog)) :
  LiveHost.getUniqueHosts logs ≤ length logs
  ∧ (LiveHost.getUniqueHosts logs = length logs
     ↔ NoDup ((λ log, lm_host_name log.2) <$> logs))
  ∧ ((∀ h, h ∈ (λ log, lm_host_name log.2) <$> logs
           ↔ h ∈ (λ log, lm_host_name log.2) <$> logs') →
     LiveHost.getUniqueHosts logs = LiveHost.getUniqueHosts logs')
  ∧ (logs ≡ₚ logs' → LiveHost.getUniqueHosts logs = LiveHost.getUniqueHosts logs').
Proof.
  unfold LiveHost.getUniqueHosts.
  set (hosts := (λ log : uuid * LiveManualLog, lm_host_name log.2) <$> logs).
  set (hosts' := (λ log : uuid * LiveManualLog, lm_host_name log.2) <$> logs').
  assert (∀ l : list string, remove_dups l ⊆+ l) as Hsub.
  { intros l. apply NoDup_submseteq; [apply NoDup_remove_dups|].
    intros x. by rewrite elem_of_remove_dups. }
  assert ((∀ h, h ∈ hosts ↔ h ∈ hosts') →
          length (remove_dups hosts) = length (remove_dups hosts')) as Hsame.
  { intros Heq. apply Permutation_length, NoDup_Permutation;
      [apply NoDup_remove_dups..|].
    intros x. by rewrite !elem_of_remove_dups. }
  split; [|split; [|split]].
  - rewrite <- (length_fmap (λ log : uuid * LiveManualLog, lm_host_name log.2) logs).
    apply submseteq_length, Hsub.
  - rewrite <- (length_fmap (λ log : uuid * LiveManualLog, lm_host_name log.2) logs).
    fold hosts. split.
    + intros Hlen.
      rewrite <- (submseteq_length_Permutation _ _ (Hsub hosts)) by lia.
      apply NoDup_remove_dups.
    + intros Hnd. f_equal. clear -Hnd. induction Hnd as [|x l Hx Hnd IH]; [reflexivity|].
      cbn. destruct (decide_rel elem_of x l) as [Hin|_]; [by destruct Hx|].
      cbn. by rewrite IH.
  - exact Hsame.
  - intros Hperm. apply Hsame. intros h. subst hosts hosts'. by rewrite Hperm.
Qed.

Lemma getUniqueHosts_counts_names_witness :
  LiveHost.getUniqueHosts [("l1", Scenario.morning); ("l2", Scenario.morning)]
  = LiveHost.getUniqueHosts [("l1", Scenario.morning)].
Proof.
  destruct (getUniqueHosts_counts_names
              [("l1", Scenario.morning); ("l2", Scenario.morning)] [("l1", Scenario.morning)])
    as (_ & _ & Hsame & _).
  apply Hsame. intros h. cbn. rewrite !elem_of_cons. tauto.
Defined.

(** ** Uploads of templates *)

(** X18. A file that passes the checks of the template form is one the
    bucket of the migration takes: its type is listed there and fits the
    type chosen in the form, and its size is within the limit of 10 MB.
    The checks let nothing through without a title, and a new template
    never without a file. *)
Theorem checked_uploads_fit_bucket (formData : Templates.FormData)
    (editingTemplate : option (uuid * Template)) (upload : option Templates.File) :
  Templates.handleSubmit_checks formData editingTemplate = Templates.proceed upload →
  trim (Templates.title formData) ≠ ""
  ∧ upload = Templates.file formData
  ∧ (editingTemplate = None → is_Some upload)
  ∧ ∀ f, upload = Some f →
      Templates.accepts Templates.templates_bucket f = true
      ∧ Templates.file_type f ∈ Templates.allowedTypes (Templates.type_ formData)
      ∧ (Templates.type_ formData = pdf → Templates.file_type f = "application/pdf").
Proof.
  unfold Templates.handleSubmit_checks.
  case_bool_decide as Htitle; [discriminate|].
  destruct (Templates.file formData) as [f|] eqn:Hfile.
  - rewrite (bool_decide_eq_true_2 (is_Some (Some f))) by (by eexists).
    cbn [negb]. rewrite andb_false_r.
    case_bool_decide as Htype; [|discriminate]. cbn [negb].
    case_bool_decide as Hsize; [discriminate|].
    intros [= <-]. split; [exact Htitle|]. split; [reflexivity|].
    split; [by eexists|]. intros f' [= <-]. split; [|split].
    + unfold Templates.accepts, Templates.templates_bucket. cbn.
      apply andb_true_iff. split; apply bool_decide_eq_true_2; [lia|].
      destruct (Templates.type_ formData); cbn in Htype;
        set_solver.
    + exact Htype.
    + intros Hpdf. rewrite Hpdf in Htype. cbn in Htype.
      by apply list_elem_of_singleton in Htype.
  - rewrite (bool_decide_eq_false_2 (is_Some None)) by (by intros [? ?]).
    cbn [negb]. rewrite andb_true_r.
    destruct editingTemplate as [editing|].
    + rewrite (bool_decide_eq_true_2 (is_Some (Some editing))) by (by eexists).
      cbn [negb]. intros [= <-]. split; [exact Htitle|]. split; [reflexivity|].
      split; [discriminate|]. discriminate.
    + rewrite (bool_decide_eq_false_2 (is_Some None)) by (by intros [? ?]).
      discriminate.
Qed.

Lemma checked_uploads_fit_bucket_witness :
  Templates.accepts Templates.templates_bucket
    {| Templates.file_type := "image/png"; Templates.file_size := 2048 |} = true.
Proof.
  destruct (checked_uploads_fit_bucket
              {| Templates.title := "Banner"; Templates.category_ := Product;
                 Templates.type_ := image;
                 Templates.file := Some {| Templates.file_type := "image/png";
                                           Templates.file_size := 2048 |} |}
              None
              (Some {| Templates.file_type := "image/png"; Templates.file_size := 2048 |}))
    as (_ & _ & _ & Hfit).
  - vm_compute. reflexivity.
  - destruct (Hfit _ eq_refl) as [Hacc _]. exact Hacc.
Defined.

(** ** The login form *)



(** ** Notes of the calendar *)





(** ** Deleting the account *)



(** ** Figures of the analytics page *)

Lemma Qc_this_add (a b : Qc) : (this (a + b)%Qc == this a + this b)%Q.
Proof. cbn. apply Qred_correct. Qed.



Lemma Qc_this_Q2Qc (q : Q) : (this (Q2Qc q) == q)%Q.
Proof. cbn. apply Qred_correct. Qed.






(** ** Weekly figures *)

Section WeeklyLemmas.
Context {A : Type}.
Variable weekKey : string -> string.
Variable value : A -> Qc.
Variable date : A -> string.

Lemma sum_values_add_to (l : list (string * Qc)) (k : string) (v : Qc) :
  sum_values (Analytics.add_to l k v) = (sum_values l + v)%Qc.
Proof.
  induction l as [|[k' v'] l IH]; cbn [Analytics.add_to].
  - unfold sum_values. cbn. ring.
  - case_bool_decide; unfold sum_values in *; cbn [foldr snd] in *; [ring|].
    rewrite IH. ring.
Qed.

Lemma keys_add_to (l : list (string * Qc)) (k : string) (v : Qc) :
  (Analytics.add_to l k v).*1 = if decide (k ∈ l.*1) then l.*1 else l.*1 ++ [k].
Proof.
  induction l as [|[k' v'] l IH]; cbn [Analytics.add_to fmap list_fmap fst].
  - rewrite decide_False by apply not_elem_of_nil. reflexivity.
  - case_bool_decide as Hk.
    + subst k'. rewrite decide_True by apply list_elem_of_here. reflexivity.
    + cbn [fmap list_fmap fst]. rewrite IH.
      destruct (decide (k ∈ l.*1)) as [Hin|Hin].
      * rewrite decide_True by (by apply list_elem_of_further). reflexivity.
      * rewrite decide_False; [reflexivity|].
        intros [Heq|Hin']%elem_of_cons; [by destruct Hk|by destruct Hin].
Qed.

Lemma weekly_from (acc : list (string * Qc)) (logs : list A) :
  let result := foldl (λ weeklyData log, Analytics.add_to weeklyData (weekKey (date log))
                                           (value log)) acc logs in
  sum_values result = (sum_values acc + foldr (λ log s, value log + s) 0 logs)%Qc
  ∧ (NoDup acc.*1 → NoDup result.*1)
  ∧ (∀ k, k ∈ result.*1 ↔ k ∈ acc.*1 ∨ ∃ log, log ∈ logs ∧ weekKey (date log) = k)
  ∧ length result ≤ length acc + length logs.
Proof.
  cbv zeta. revert acc. induction logs as [|log logs IH]; intros acc; cbn [foldl foldr length].
  - split; [ring|]. split; [tauto|]. split; [|lia].
    intros k. split; [tauto|]. intros [Hk|(log & Hin & _)]; [exact Hk|].
    by apply elem_of_nil in Hin.
  - destruct (IH (Analytics.add_to acc (weekKey (date log)) (value log)))
      as (Hsum & Hnd & Hkeys & Hlen).
    pose proof (keys_add_to acc (weekKey (date log)) (value log)) as Hk.
    split; [rewrite Hsum, sum_values_add_to; ring|]. split; [|split].
    + intros Hacc. apply Hnd. rewrite Hk. case_decide as Hin; [exact Hacc|].
      apply NoDup_app. split; [exact Hacc|]. split; [|apply NoDup_singleton].
      intros x Hx Hx'. apply list_elem_of_singleton in Hx'. by subst x.
    + intros k. rewrite Hkeys, Hk. split.
      * intros [Hin|(log' & Hin' & Hw)].
        -- case_decide as Hdec; [by left|].
           apply elem_of_app in Hin as [Hin|Hin]; [by left|].
           apply list_elem_of_singleton in Hin. right. exists log.
           split; [apply list_elem_of_here|by symmetry].
        -- right. exists log'. split; [by apply list_elem_of_further|exact Hw].
      * intros [Hin|(log' & Hin' & Hw)].
        -- left. case_decide; [exact Hin|]. apply elem_of_app. by left.
        -- apply elem_of_cons in Hin' as [->|Hin'].
           ++ left. subst k. case_decide as Hdec; [exact Hdec|].
              apply elem_of_app. right. apply list_elem_of_here.
           ++ right. exists log'. by split.
    + assert (length (Analytics.add_to acc (weekKey (date log)) (value log))
              ≤ S (length acc)) as Hone.
      { rewrite <- (length_fmap fst), Hk. case_decide.
        - rewrite length_fmap. lia.
        - rewrite length_app, length_fmap. cbn. lia. }
      lia.
Qed.
End WeeklyLemmas.

Lemma inject_content (logs : list (uuid * ContentLog)) (z : Z) :
  Q2Qc (inject_Z (foldl (λ sum log, (sum + cl_content_count log.2)%Z) z logs))
  = (Q2Qc (inject_Z z)
     + foldr (λ log s, Q2Qc (inject_Z (cl_content_count log.2)) + s) 0 logs)%Qc.
Proof.
  revert z. induction logs as [|log logs IH]; intros z; cbn [foldl foldr].
  - ring.
  - rewrite IH. rewrite Qcplus_assoc. f_equal.
    apply Qc_is_canon. rewrite Qc_this_add, !Qc_this_Q2Qc, inject_Z_plus. reflexivity.
Qed.

Lemma sum_values_labels (label : string -> string) (l : list (string * Qc)) :
  sum_values ((λ entry, (label entry.1, entry.2)) <$> l) = sum_values l.
Proof.
  unfold sum_values. induction l as [|e l IH]; [reflexivity|].
  cbn [fmap list_fmap foldr snd]. cbn [fmap] in IH. by rewrite IH.
Qed.

(** X23. The weekly content chart keeps the total: its values add up to
    the content count of all logs of the period.  It has one entry for each
    week in which a log falls, in the order in which the weeks first occur,
    so never more entries than logs. *)
Theorem weekly_content_adds_up (weekKey label : string -> string)
    (contentLogs : list (uuid * ContentLog)) :
  let weeks := Analytics.weekly weekKey
                 (λ log : uuid * ContentLog, Q2Qc (inject_Z (cl_content_count log.2)))
                 (λ log, cl_log_date log.2) contentLogs in
  sum_values (Analytics.weeklyContent weekKey label contentLogs)
  = Q2Qc (inject_Z (Analytics.totalContent contentLogs))
  ∧ Analytics.weeklyContent weekKey label contentLogs
    = (λ entry, (label entry.1, entry.2)) <$> weeks
  ∧ NoDup weeks.*1
  ∧ (∀ k, k ∈ weeks.*1 ↔ ∃ log, log ∈ contentLogs ∧ weekKey (cl_log_date log.2) = k)
  ∧ length (Analytics.weeklyContent weekKey label contentLogs) ≤ length contentLogs.
Proof.
  cbv zeta. unfold Analytics.weeklyContent, Analytics.processWeeklyData, Analytics.weekly.
  destruct (weekly_from weekKey
              (λ log : uuid * ContentLog, Q2Qc (inject_Z (cl_content_count log.2)))
              (λ log, cl_log_date log.2) [] contentLogs) as (Hsum & Hnd & Hkeys & Hlen).
  cbv zeta in Hsum, Hnd, Hkeys, Hlen.
  split; [|split; [reflexivity|split; [|split]]].
  - rewrite sum_values_labels, Hsum. unfold Analytics.totalContent.
    rewrite inject_content. reflexivity.
  - apply Hnd. apply NoDup_nil_2.
  - intros k. rewrite Hkeys. split; [|by right].
    intros [Hin|Hex]; [by apply elem_of_nil in Hin|exact Hex].
  - rewrite length_fmap. exact Hlen.
Qed.
